(** * Radio component and event listeners of gradio

    A shallow embedding of [gradio/components/radio.py] and
    [gradio/events.py], and the properties of the two that the
    specification of the package states.

    Python objects are modelled by the data they carry.  Code that raises
    returns a [result]; code that mutates the application (the table of
    dependencies of the root container, the attributes of a block, the
    warnings that were emitted) runs in a state-and-exception monad over
    a [World]. *)

From Stdlib Require Import SpecFloat.
From stdpp Require Import base option list strings pretty gmap.

Open Scope string_scope.
Open Scope list_scope.
Set Warnings "-register-all".

(** ** Python values shared by the two modules *)

(** The exceptions the two files can raise. *)
Inductive exn :=
  | ValueError (msg : string)
  | TypeError (msg : string)
  | AttributeError (msg : string).

(** The outcome of a call that does not touch the application state. *)
Inductive result (A : Type) :=
  | Ok (a : A)
  | Raise (e : exn).
Arguments Ok {A} a.
Arguments Raise {A} e.

(** A Python [float], as an IEEE 754 datum. *)
Definition pyfloat := spec_float.

(** [repr] of a list of plain strings, as an f-string prints it:
    [['value', 'index']]. *)
Fixpoint join (sep : string) (l : list string) : string :=
  match l with
  | [] => ""
  | [s] => s
  | s :: l' => s +:+ sep +:+ join sep l'
  end.

Definition repr_str_list (l : list string) : string :=
  "[" +:+ join ", " ((λ s, "'" +:+ s +:+ "'") <$> l) +:+ "]".

(** ** gradio/components/radio.py *)

Module Radio.

(** The values a choice can have ([str | int | float]) are known through
    the three operations the component applies to them: [==] (as
    [list.index] and [in] use it, the list item on the left), [str()],
    and the injection of a Python [int], which is what [list.index]
    returns. *)
Class PyScalar (V : Type) := {
  py_eq : V → V → bool;
  py_str : V → string;
  py_int : Z → V;
}.

(** The scalars [str | int], with Python's comparison and [str()]. *)
Inductive scalar :=
  | Str (s : string)
  | Int (n : Z).

Definition scalar_eq (a b : scalar) : bool :=
  match a, b with
  | Str s, Str t => bool_decide (s = t)
  | Int n, Int m => bool_decide (n = m)
  | _, _ => false
  end.

Definition scalar_str (a : scalar) : string :=
  match a with
  | Str s => s
  | Int n => pretty n
  end.

#[export] Instance scalar_PyScalar : PyScalar scalar :=
  {| py_eq := scalar_eq; py_str := scalar_str; py_int := Int |}.

(** An element of the [choices] argument: a bare value, or a
    [(name, value)] tuple. *)
Inductive choice_arg (V : Type) :=
  | Bare (c : V)
  | Tuple (name : string) (value : V).
Arguments Bare {V} c.
Arguments Tuple {V} name value.

Section Radio.
Context {V : Type} `{!PyScalar V}.

(** [FormComponent.__init__] is not part of these sources: [K] stands
    for the keyword arguments [Radio.__init__] forwards to it
    ([label], [info], [every], ..., [value], [**kwargs]), [B] for the
    state it sets up, and [super_init] for its outcome. *)
Context {K B : Type} (super_init : K → result B).

Record Radio := {
  choices : list (string * V);
  type : string;
  base : B;
}.

(** [[c if isinstance(c, tuple) else (str(c), c) for c in choices]
    if choices else []] *)
Definition normalise_choice (c : choice_arg V) : string * V :=
  match c with
  | Tuple name value => (name, value)
  | Bare c => (py_str c, c)
  end.

Definition normalise_choices (choices : option (list (choice_arg V)))
  : list (string * V) :=
  match choices with
  | Some (c :: cs) => normalise_choice <$> (c :: cs)
  | Some [] | None => []
  end.

Definition valid_types : list string := ["value"; "index"].

Definition invalid_type_msg (type : string) : string :=
  "Invalid value for parameter `type`: " +:+ type
    +:+ ". Please choose from one of: " +:+ repr_str_list valid_types.

(** [Radio.__init__].  [type = None] is a call that leaves [type] out,
    so that it takes its default ["value"]. *)
Definition __init__ (choices : option (list (choice_arg V)))
    (type : option string) (kwargs : K) : result Radio :=
  let self_choices := normalise_choices choices in
  let type := default "value" type in
  if bool_decide (type ∉ valid_types) then
    Raise (ValueError (invalid_type_msg type))
  else
    match super_init kwargs with
    | Ok b => Ok {| choices := self_choices; type := type; base := b |}
    | Raise e => Raise e
    end.

(** [self.choices[0][1] if self.choices else None] *)
Definition example_inputs (self : Radio) : option V :=
  match choices self with
  | (_, value) :: _ => Some value
  | [] => None
  end.

(** [x in choice_values] *)
Definition list_contains (x : V) (l : list V) : bool :=
  existsb (λ item, py_eq item x) l.

(** [choice_values.index(x)]: the position of the first item equal to
    [x]; [None] is the [ValueError] of a list that has none. *)
Fixpoint list_index (x : V) (l : list V) : option nat :=
  match l with
  | [] => None
  | item :: l' => if py_eq item x then Some 0 else S <$> list_index x l'
  end.

Definition unknown_type_msg (type : string) : string :=
  "Unknown type: " +:+ type +:+ ". Please choose from: 'value', 'index'.".

(** [Radio.preprocess].  The selected choice [x] is a scalar or
    [None]; so is what is returned. *)
Definition preprocess (self : Radio) (x : option V) : result (option V) :=
  if bool_decide (type self = "value") then
    Ok x
  else if bool_decide (type self = "index") then
    match x with
    | None => Ok None
    | Some x =>
        let choice_values := snd <$> choices self in
        if list_contains x choice_values then
          match list_index x choice_values with
          | Some i => Ok (Some (py_int (Z.of_nat i)))
          | None => Raise (ValueError "list.index(x): x not in list")
          end
        else Ok None
    end
  else
    Raise (ValueError (unknown_type_msg (type self))).

Definition postprocess (self : Radio) (y : option V) : option V := y.

(** [return {"type": "string"}] *)
Definition api_info (self : Radio) : gmap string string :=
  {[ "type" := "string" ]}.

End Radio.

Arguments Radio V B : clear implicits.

End Radio.

(** ** gradio/events.py *)

Module Events.

(** *** Values *)

(** A reference to a [Block] (a component or a layout) of the application. *)
Definition block_ref := nat.

(** Python objects: what is passed by keyword to [set_event_trigger] and
    kept as attributes of a block, and what is given as [fn]: a function
    of the application, known by its name, the closure [inner] that
    [wrapper] builds around [func], and the function that
    [get_cancel_function] returns. *)
Inductive pyobj :=
  | PyNone
  | PyBool (b : bool)
  | PyInt (n : Z)
  | PyFloat (f : pyfloat)
  | PyStr (s : string)
  | PyList (l : list pyobj)
  | PyFn (name : string)
  | PyInner (func : pyobj)
  | PyCancelFn (fn_indices : list pyobj).

(** Python's truth value of an object. *)
Definition truthy (o : pyobj) : bool :=
  match o with
  | PyNone => false
  | PyBool b => b
  | PyInt n => bool_decide (n ≠ 0%Z)
  | PyFloat (S754_zero _) => false
  | PyFloat _ => true
  | PyStr s => bool_decide (s ≠ "")
  | PyList [] => false
  | PyList (_ :: _) => true
  | PyFn _ | PyInner _ | PyCancelFn _ => true
  end.

Definition of_option {A} (f : A → pyobj) (o : option A) : pyobj :=
  from_option f PyNone o.

Definition of_nat (n : nat) : pyobj := PyInt (Z.of_nat n).

(** [inputs] and [outputs]: [None], one component, a sequence, or (for
    [inputs]) a set of components. *)
Inductive components_arg :=
  | CompNone
  | Comp (c : block_ref)
  | CompSeq (l : list block_ref)
  | CompSet (s : gset block_ref).

(** The callbacks of the catalogue are all of the shape
    [lambda block: setattr(block, name, True)]. *)
Inductive callback_fn :=
  | SetAttrTrue (name : string).

(** The attributes of an [EventListener].  Its [listener] is the closure
    [event_trigger] over these, defined below. *)
Record EventListener := {
  event_name : string;
  show_progress : option string;
  callback : option callback_fn;
  trigger_after : option nat;
  trigger_only_on_success : bool;
}.

(** [EventListener.__init__], with its defaults [show_progress=None],
    [callback=None], [trigger_after=None],
    [trigger_only_on_success=False]. *)
Definition EventListener_init (event_name : string)
    (show_progress : option (option string))
    (callback : option (option callback_fn))
    (trigger_after : option (option nat))
    (trigger_only_on_success : option bool) : EventListener :=
  {| event_name := event_name;
     show_progress := default None show_progress;
     callback := default None callback;
     trigger_after := default None trigger_after;
     trigger_only_on_success := default false trigger_only_on_success |}.

(** *** The application state *)

(** Modelled from the spec: the dependency record that
    [Block.set_event_trigger] (gradio/blocks.py, not part of these
    sources) creates.  It identifies the triggering object, the callback
    function, the declared inputs and outputs, and the binding options,
    here exactly the keyword arguments of the call: an option that the
    caller left out has no entry. *)
Record dependency := {
  dep_targets : block_ref;
  dep_trigger : string;
  dep_fn : pyobj;
  dep_inputs : components_arg;
  dep_outputs : components_arg;
  dep_options : gmap string pyobj;
}.

(** Modelled from the spec: what the binder uses of a [Block]
    (gradio/blocks.py, not part of these sources): the names of the events
    it declares, its attributes (the capability flags are among them), and
    the outcome of its validation hook [check_streamable], [None] when it
    returns and [Some e] when it raises [e]. *)
Record Block := {
  events : list string;
  attrs : gmap string pyobj;
  check_streamable : option exn;
}.

Record World := {
  blocks : gmap block_ref Block;
  dependencies : list dependency;
  warnings : list string;
}.

(** *** The monad of state and exceptions *)

Inductive outcome (A : Type) :=
  | Returns (a : A) (w : World)
  | Raises (e : exn) (w : World).
Arguments Returns {A} a w.
Arguments Raises {A} e w.

Definition M (A : Type) : Type := World → outcome A.

#[export] Instance M_ret : MRet M := λ A a w, Returns a w.

#[export] Instance M_bind : MBind M := λ A B f m w,
  match m w with
  | Returns a w' => f a w'
  | Raises e w' => Raises e w'
  end.

Definition raise {A} (e : exn) : M A := λ w, Raises e w.

Definition when (c : bool) (m : M ()) : M () := if c then m else mret ().

(** Modelled from the spec: [warn_deprecation] (gradio/deprecation.py,
    not part of these sources) emits a deprecation warning, which is not
    fatal: the call goes on. *)
Definition warn_deprecation (msg : string) : M () := λ w,
  Returns () {| blocks := blocks w; dependencies := dependencies w;
                warnings := warnings w ++ [msg] |}.

(** Reading the object behind [block] for its attribute [attr].  [None]
    has no attributes; neither has, in this model, a reference that the
    application holds no block for. *)
Definition get_block (block : option block_ref) (attr : string)
  : M (block_ref * Block) := λ w,
  match block with
  | None =>
      Raises (AttributeError
        ("'NoneType' object has no attribute '" +:+ attr +:+ "'")) w
  | Some r =>
      match blocks w !! r with
      | Some b => Returns (r, b) w
      | None =>
          Raises (AttributeError
            ("'Block' object has no attribute '" +:+ attr +:+ "'")) w
      end
  end.

(** [setattr(block, name, value)] *)
Definition setattr (block : block_ref) (name : string) (value : pyobj)
  : M () := λ w,
  Returns ()
    {| blocks := alter (λ b, {| events := events b;
                                 attrs := <[name := value]> (attrs b);
                                 check_streamable := check_streamable b |})
                   block (blocks w);
       dependencies := dependencies w;
       warnings := warnings w |}.

Definition run_callback (cb : callback_fn) (block : block_ref) : M () :=
  match cb with
  | SetAttrTrue name => setattr block name (PyBool true)
  end.

(** [block.check_streamable()] *)
Definition call_check_streamable (b : Block) : M () :=
  match check_streamable b with
  | Some e => raise e
  | None => mret ()
  end.

(** Modelled from the spec: [Block.set_event_trigger] (gradio/blocks.py,
    not part of these sources) registers the dependency with the hosting
    container, whose table is append-only, and returns the record and its
    ordinal index within the table. *)
Definition set_event_trigger (self : block_ref) (event_name : string)
    (fn : pyobj) (inputs outputs : components_arg)
    (kwargs : gmap string pyobj) : M (dependency * nat) := λ w,
  let dep := {| dep_targets := self; dep_trigger := event_name;
                dep_fn := fn; dep_inputs := inputs; dep_outputs := outputs;
                dep_options := kwargs |} in
  Returns (dep, length (dependencies w))
    {| blocks := blocks w; dependencies := dependencies w ++ [dep];
       warnings := warnings w |}.

(** *** Arguments of a listener and dependency handles *)

(** [cancels]: [None], one handle, or a list of handles. *)
Inductive cancels_arg (D : Type) :=
  | CancelsNone
  | CancelsOne (d : D)
  | CancelsList (l : list D).
Arguments CancelsNone {D}.
Arguments CancelsOne {D} d.
Arguments CancelsList {D} l.

(** The parameters of [event_trigger] after [block] and [fn], once the
    call is bound: every one has a value. *)
Record trigger_args (D : Type) := {
  inputs : components_arg;
  outputs : components_arg;
  api_name : pyobj;
  status_tracker : pyobj;
  scroll_to_output : bool;
  show_progress_arg : pyobj;
  queue : option bool;
  batch : bool;
  max_batch_size : Z;
  preprocess : bool;
  postprocess : bool;
  cancels : cancels_arg D;
  every : option pyfloat;
  _js : option string;
}.
Arguments inputs {D} _.
Arguments outputs {D} _.
Arguments api_name {D} _.
Arguments status_tracker {D} _.
Arguments scroll_to_output {D} _.
Arguments show_progress_arg {D} _.
Arguments queue {D} _.
Arguments batch {D} _.
Arguments max_batch_size {D} _.
Arguments preprocess {D} _.
Arguments postprocess {D} _.
Arguments cancels {D} _.
Arguments every {D} _.
Arguments _js {D} _.

(** What a handle holds as [fn]: the [fn] of the binding, or the closure
    [wrapper] of a call with [fn == "decorator"], which captures the
    listener and every argument of that call. *)
Inductive handle_fn (D : Type) :=
  | HandleFn (fn : pyobj)
  | Wrapper (l : EventListener) (block : option block_ref)
      (a : trigger_args D).
Arguments HandleFn {D} fn.
Arguments Wrapper {D} l block a.

(** [class Dependency(dict)].  [key_vals] is the content of the dict:
    the record of the binding, or nothing for [{}].  [then_] and
    [success] are the two listeners of which [__init__] stores the
    [listener], partly applied to [trigger]. *)
Inductive Dependency := Build_Dependency {
  key_vals : option dependency;
  fn : handle_fn Dependency;
  trigger : option block_ref;
  then_ : EventListener;
  success : EventListener;
}.

(** [Dependency.__init__] *)
Definition Dependency_init (trigger : option block_ref)
    (key_vals : option dependency) (dep_index : option nat)
    (fn : handle_fn Dependency) : Dependency :=
  {| key_vals := key_vals;
     fn := fn;
     trigger := trigger;
     then_ := EventListener_init "then" None None
                (Some dep_index) (Some false);
     success := EventListener_init "success" None None
                  (Some dep_index) (Some true) |}.

(** The ordinal index a handle was built with. *)
Definition index (d : Dependency) : option nat := trigger_after (then_ d).

(** A call of a listener names some of the parameters; [None] is a
    parameter the caller leaves out. *)
Record call_kwargs := {
  kw_inputs : option components_arg;
  kw_outputs : option components_arg;
  kw_api_name : option pyobj;
  kw_status_tracker : option pyobj;
  kw_scroll_to_output : option bool;
  kw_show_progress : option pyobj;
  kw_queue : option (option bool);
  kw_batch : option bool;
  kw_max_batch_size : option Z;
  kw_preprocess : option bool;
  kw_postprocess : option bool;
  kw_cancels : option (cancels_arg Dependency);
  kw_every : option (option pyfloat);
  kw__js : option (option string);
}.

(** The defaults of the signature of [event_trigger]. *)
Definition bind_defaults (kw : call_kwargs) : trigger_args Dependency :=
  {| inputs := default CompNone (kw_inputs kw);
     outputs := default CompNone (kw_outputs kw);
     api_name := default PyNone (kw_api_name kw);
     status_tracker := default PyNone (kw_status_tracker kw);
     scroll_to_output := default false (kw_scroll_to_output kw);
     show_progress_arg := default (PyStr "full") (kw_show_progress kw);
     queue := default None (kw_queue kw);
     batch := default false (kw_batch kw);
     max_batch_size := default 4%Z (kw_max_batch_size kw);
     preprocess := default true (kw_preprocess kw);
     postprocess := default true (kw_postprocess kw);
     cancels := default CancelsNone (kw_cancels kw);
     every := default None (kw_every kw);
     _js := default None (kw__js kw) |}.

(** A call that names no parameter. *)
Definition no_kwargs : call_kwargs :=
  {| kw_inputs := None; kw_outputs := None; kw_api_name := None;
     kw_status_tracker := None; kw_scroll_to_output := None;
     kw_show_progress := None; kw_queue := None; kw_batch := None;
     kw_max_batch_size := None; kw_preprocess := None;
     kw_postprocess := None; kw_cancels := None; kw_every := None;
     kw__js := None |}.

(** *** Cancellation *)

(** Modelled from the spec: [get_cancel_function] (gradio/utils.py, not
    part of these sources) returns the function that cancels the listed
    dependencies, and their ordinal indices. *)
Definition get_cancel_function (dependencies : list Dependency)
  : pyobj * list pyobj :=
  let fn_indices := (λ d, of_option of_nat (index d)) <$> dependencies in
  (PyCancelFn fn_indices, fn_indices).

(** The truth value of [cancels]: a [Dependency] is a dict, false when
    empty. *)
Definition cancels_truthy (cancels : cancels_arg Dependency) : bool :=
  match cancels with
  | CancelsNone => false
  | CancelsOne d => bool_decide (is_Some (key_vals d))
  | CancelsList [] => false
  | CancelsList (_ :: _) => true
  end.

Definition set_cancel_events (block : block_ref) (event_name : string)
    (cancels : cancels_arg Dependency) : M () :=
  if cancels_truthy cancels then
    let cancels :=
      match cancels with
      | CancelsList l => l
      | CancelsOne d => [d]
      | CancelsNone => []
      end in
    let '(cancel_fn, fn_indices_to_cancel) := get_cancel_function cancels in
    set_event_trigger block event_name cancel_fn CompNone CompNone
      {[ "queue" := PyBool false;
         "preprocess" := PyBool false;
         "cancels" := PyList fn_indices_to_cancel ]} ;;
    mret ()
  else mret ().

(** *** The listener of an event *)

(** [fn == "decorator"] *)
Definition is_decorator (fn : pyobj) : bool :=
  match fn with
  | PyStr s => bool_decide (s = "decorator")
  | _ => false
  end.

(** [if isinstance(show_progress, bool):
       show_progress = "full" if show_progress else "hidden"] *)
Definition coerce_show_progress (show_progress : pyobj) : pyobj :=
  match show_progress with
  | PyBool b => PyStr (if b then "full" else "hidden")
  | _ => show_progress
  end.

(** [show_progress if show_progress is not None else _show_progress] *)
Definition show_progress_or (show_progress : pyobj)
    (_show_progress : option string) : pyobj :=
  match show_progress with
  | PyNone => of_option PyStr _show_progress
  | _ => show_progress
  end.

Definition status_tracker_msg : string :=
  "The 'status_tracker' parameter has been deprecated and has no effect.".

Definition stop_msg : string :=
  "The `stop` event on Video and Audio has been deprecated and will be remove in a future version. Use `ended` instead.".

(** The keyword arguments of the call of [set_event_trigger] in
    [event_trigger]. *)
Definition trigger_kwargs (l : EventListener) (a : trigger_args Dependency)
    (progress : pyobj) : gmap string pyobj :=
  {[ "preprocess" := PyBool (preprocess a);
     "postprocess" := PyBool (postprocess a);
     "scroll_to_output" := PyBool (scroll_to_output a);
     "show_progress" := show_progress_or progress (show_progress l);
     "api_name" := api_name a;
     "js" := of_option PyStr (_js a);
     "queue" := of_option PyBool (queue a);
     "batch" := PyBool (batch a);
     "max_batch_size" := PyInt (max_batch_size a);
     "every" := of_option PyFloat (every a);
     "trigger_after" := of_option of_nat (trigger_after l);
     "trigger_only_on_success" := PyBool (trigger_only_on_success l) ]}.

(** The closure [event_trigger] that [EventListener._setup] returns for
    the listener [l]; its parameters are bound in [a].  With
    [fn == "decorator"] nothing is registered: the handle that is returned
    holds the closure [wrapper]. *)
Definition event_trigger (l : EventListener) (block : option block_ref)
    (fn : pyobj) (a : trigger_args Dependency) : M Dependency :=
  if is_decorator fn then
    mret (Dependency_init None None None (Wrapper l block a))
  else
    when (truthy (status_tracker a)) (warn_deprecation status_tracker_msg) ;;
    when (bool_decide (event_name l = "stop")) (warn_deprecation stop_msg) ;;
    '(block, b) ← get_block block "events" ;
    when (bool_decide ("stream" ∈ events b)) (call_check_streamable b) ;;
    let show_progress := coerce_show_progress (show_progress_arg a) in
    '(dep, dep_index) ←
      set_event_trigger block (event_name l) fn (inputs a) (outputs a)
        (trigger_kwargs l a show_progress) ;
    set_cancel_events block (event_name l) (cancels a) ;;
    from_option (λ _callback, run_callback _callback block) (mret ())
      (callback l) ;;
    mret (Dependency_init (Some block) (Some dep) (Some dep_index)
            (HandleFn fn)).

(** [EventListener.listener], called with the parameters [kw]. *)
Definition listener (l : EventListener) (block : option block_ref)
    (fn : pyobj) (kw : call_kwargs) : M Dependency :=
  event_trigger l block fn (bind_defaults kw).

(** The closure [wrapper] of [event_trigger]: it binds [func] with the
    arguments of the call that built it, and returns the closure [inner]
    around [func]. *)
Definition wrapper (l : EventListener) (block : option block_ref)
    (a : trigger_args Dependency) (func : pyobj) : M pyobj :=
  event_trigger l block func a ;;
  mret (PyInner func).

(** [self.then] and [self.success]: [partial(listener, trigger)] *)
Definition Dependency_then (self : Dependency) :=
  listener (then_ self) (trigger self).

Definition Dependency_success (self : Dependency) :=
  listener (success self) (trigger self).

Section Call.
(** The functions of the application, by name: what a call of one does. *)
Context (apply_fn : string → list pyobj → M pyobj).

(** Calling an object.  [inner] calls [func] with the arguments it is
    given and returns what [func] returns. *)
Fixpoint call (f : pyobj) (args : list pyobj) : M pyobj :=
  match f with
  | PyFn name => apply_fn name args
  | PyInner func => call func args
  | PyCancelFn _ => apply_fn "cancel" args
  | PyNone => raise (TypeError "'NoneType' object is not callable")
  | PyBool _ => raise (TypeError "'bool' object is not callable")
  | PyInt _ => raise (TypeError "'int' object is not callable")
  | PyFloat _ => raise (TypeError "'float' object is not callable")
  | PyStr _ => raise (TypeError "'str' object is not callable")
  | PyList _ => raise (TypeError "'list' object is not callable")
  end.

(** [Dependency.__call__]: [self.fn], called with the same arguments.
    [wrapper] has the one parameter [func]; the messages of a call with
    another number of arguments are Python's (later versions put the
    qualified name of [wrapper] in front). *)
Definition __call__ (self : Dependency) (args : list pyobj) : M pyobj :=
  match fn self with
  | HandleFn fn => call fn args
  | Wrapper l block a =>
      match args with
      | [func] => wrapper l block a func
      | [] =>
          raise (TypeError
            "wrapper() missing 1 required positional argument: 'func'")
      | _ :: _ :: _ =>
          raise (TypeError
            ("wrapper() takes 1 positional argument but "
               +:+ pretty (length args) +:+ " were given"))
      end
  end.

End Call.

(** *** The catalogue *)

(** [class Events].  Most events are plain names; [select], [stream] and
    [like] are listeners. *)
Definition change := "change".
Definition input := "input".
Definition click := "click".
Definition submit := "submit".
Definition edit := "edit".
Definition clear := "clear".
Definition play := "play".
Definition pause := "pause".
Definition stop := "stop".
Definition end_ := "end".
Definition start_recording := "start_recording".
Definition stop_recording := "stop_recording".
Definition focus := "focus".
Definition blur := "blur".
Definition upload := "upload".
Definition release := "release".

Definition select : EventListener :=
  EventListener_init "select" None
    (Some (Some (SetAttrTrue "selectable"))) None None.

Definition stream : EventListener :=
  EventListener_init "stream" (Some (Some "hidden"))
    (Some (Some (SetAttrTrue "streaming"))) None None.

Definition like : EventListener :=
  EventListener_init "like" None
    (Some (Some (SetAttrTrue "likeable"))) None None.

End Events.

(** ** What a binding adds to the application *)

Module Bindings.
Import Events.

(** A block on which a binding goes through: it is a block of the
    application, and if it declares the event ["stream"], its hook
    [check_streamable] returns. *)
Definition bindable (w : World) (r : block_ref) : bool :=
  match blocks w !! r with
  | Some b =>
      match check_streamable b with
      | None => true
      | Some _ => negb (bool_decide ("stream" ∈ events b))
      end
  | None => false
  end.

(** The record of the binding itself. *)
Definition bound_dependency (l : EventListener) (r : block_ref)
    (fn : pyobj) (a : trigger_args Dependency) : dependency :=
  {| dep_targets := r; dep_trigger := event_name l; dep_fn := fn;
     dep_inputs := inputs a; dep_outputs := outputs a;
     dep_options :=
       trigger_kwargs l a (coerce_show_progress (show_progress_arg a)) |}.

(** The handles that [cancels] lists. *)
Definition cancel_handles (cancels : cancels_arg Dependency)
  : list Dependency :=
  match cancels with
  | CancelsNone => []
  | CancelsOne d => if bool_decide (is_Some (key_vals d)) then [d] else []
  | CancelsList l => l
  end.

(** The record that cancels the handles [ds]. *)
Definition cancel_dependency (r : block_ref) (name : string)
    (ds : list Dependency) : dependency :=
  {| dep_targets := r; dep_trigger := name;
     dep_fn := PyCancelFn ((λ d, of_option of_nat (index d)) <$> ds);
     dep_inputs := CompNone; dep_outputs := CompNone;
     dep_options :=
       {[ "queue" := PyBool false;
          "preprocess" := PyBool false;
          "cancels" := PyList ((λ d, of_option of_nat (index d)) <$> ds) ]} |}.

Definition cancel_dependencies (r : block_ref) (name : string)
    (cancels : cancels_arg Dependency) : list dependency :=
  match cancel_handles cancels with
  | [] => []
  | ds => [cancel_dependency r name ds]
  end.

Definition set_flag (name : string) (b : Block) : Block :=
  {| events := events b; attrs := <[name := PyBool true]> (attrs b);
     check_streamable := check_streamable b |}.

Definition after_callback (l : EventListener) (r : block_ref)
    (bs : gmap block_ref Block) : gmap block_ref Block :=
  match callback l with
  | Some (SetAttrTrue name) => alter (set_flag name) r bs
  | None => bs
  end.

Definition new_warnings (l : EventListener) (a : trigger_args Dependency)
  : list string :=
  (if truthy (status_tracker a) then [status_tracker_msg] else []) ++
  (if bool_decide (event_name l = "stop") then [stop_msg] else []).

End Bindings.

(** ** Sample data *)

Module Samples.
Import Radio Events.

(** A base initialiser that keeps the keyword arguments it receives. *)
Definition keep_kwargs {K : Type} (kwargs : K) : result K := Ok kwargs.

(** [gr.Radio(["a", "b", "c"], type="index")] once constructed. *)
Definition radio_abc : Radio.Radio scalar (list string) :=
  {| choices := [("a", Str "a"); ("b", Str "b"); ("c", Str "c")];
     type := "index";
     base := [] |}.

(** [gr.Radio([1, 2, 3])] once constructed. *)
Definition radio_123 : Radio.Radio scalar (list string) :=
  {| choices := [("1", Int 1); ("2", Int 2); ("3", Int 3)];
     type := "value";
     base := [] |}.

(** The listener of an event of the catalogue that is a plain name. *)
Definition of_name (event_name : string) : EventListener :=
  EventListener_init event_name None None None None.

(** An application with a webcam image, which declares ["stream"], and a
    radio, with the events of [Radio.EVENTS]; nothing is bound yet. *)
Definition webcam : Block :=
  {| events := ["stream"; change]; attrs := ∅; check_streamable := None |}.

Definition radio : Block :=
  {| events := [event_name select; change; input]; attrs := ∅;
     check_streamable := None |}.

Definition app : World :=
  {| blocks := {[ 0 := webcam; 1 := radio ]}; dependencies := [];
     warnings := [] |}.

Definition returned {A} (o : outcome A) : option A :=
  match o with
  | Returns a _ => Some a
  | Raises _ _ => None
  end.

Definition world_of {A} (o : outcome A) : World :=
  match o with
  | Returns _ w | Raises _ w => w
  end.

(** [run = radio.change(run_fn)]: the handle, and the application after
    the call. *)
Definition bind_run : outcome Dependency :=
  listener (of_name change) (Some 1) (PyFn "run_fn") no_kwargs app.

Definition run : Dependency :=
  default (Dependency_init None None None (HandleFn PyNone))
    (returned bind_run).

Definition app_run : World := world_of bind_run.

(** The keyword arguments [cancels=[run]]. *)
Definition cancels_run : call_kwargs :=
  {| kw_inputs := None; kw_outputs := None; kw_api_name := None;
     kw_status_tracker := None; kw_scroll_to_output := None;
     kw_show_progress := None; kw_queue := None; kw_batch := None;
     kw_max_batch_size := None; kw_preprocess := None;
     kw_postprocess := None; kw_cancels := Some (CancelsList [run]);
     kw_every := None; kw__js := None |}.

(** Functions of the application that return [None]. *)
Definition return_none (name : string) (args : list pyobj) : M pyobj :=
  mret PyNone.

End Samples.

(** ** The rest of gradio/components/radio.py *)

Module RadioUpdate.
Import Radio.

Section Update.
Context {V : Type} `{!PyScalar V}.

(** The argument [value] of [update]: the marker [_Keywords.NO_VALUE],
    its default, or a selected choice, [None] included. *)
Inductive value_arg :=
  | NO_VALUE
  | Given (value : option V).

(** What the mapping that [update] returns holds. *)
Inductive field :=
  | FNone
  | FNoValue
  | FScalar (v : V)
  | FStr (s : string)
  | FBool (b : bool)
  | FInt (n : Z)
  | FChoices (l : list (string * V)).

Definition of_value (value : value_arg) : field :=
  match value with
  | NO_VALUE => FNoValue
  | Given None => FNone
  | Given (Some v) => FScalar v
  end.

Definition of_opt {A} (f : A → field) (o : option A) : field :=
  from_option f FNone o.

Definition update_msg : string :=
  "Using the update method is deprecated. Simply return a new object instead, e.g. `return gr.Radio(...)` instead of `return gr.Radio.update(...)`.".

(** [Radio.update]: the warnings it emits, and the mapping it returns.
    Every parameter but [value] has the default [None]. *)
Definition update (value : value_arg)
    (choices : option (list (choice_arg V)))
    (label info : option string) (show_label container : option bool)
    (scale min_width : option Z) (interactive visible : option bool)
  : list string * gmap string field :=
  let choices :=
    match choices with
    | None => None
    | Some choices => Some (normalise_choice <$> choices)
    end in
  ([update_msg],
   {[ "choices" := of_opt FChoices choices;
      "label" := of_opt FStr label;
      "info" := of_opt FStr info;
      "show_label" := of_opt FBool show_label;
      "container" := of_opt FBool container;
      "scale" := of_opt FInt scale;
      "min_width" := of_opt FInt min_width;
      "interactive" := of_opt FBool interactive;
      "visible" := of_opt FBool visible;
      "value" := of_value value;
      "__type__" := FStr "update" ]}).

End Update.

Arguments value_arg V : clear implicits.
Arguments field V : clear implicits.

End RadioUpdate.

(** ** The event data of gradio/events.py *)

(** The data of an event is a mapping; [data[key]] raises [KeyError] for a
    key it does not have. *)
Inductive built (A : Type) :=
  | Built (a : A)
  | KeyError (key : string).
Arguments Built {A} a.
Arguments KeyError {A} key.

Definition getitem (data : gmap string Events.pyobj) (key : string)
  : built Events.pyobj :=
  match data !! key with
  | Some v => Built v
  | None => KeyError key
  end.

(** [data.get(key, default)] *)
Definition get (data : gmap string Events.pyobj) (key : string)
    (default : Events.pyobj) : Events.pyobj :=
  from_option id default (data !! key).

Module EventData.
Import Events.

Record EventData := {
  target : option block_ref;
  _data : gmap string pyobj;
}.

Definition __init__ (target : option block_ref) (_data : gmap string pyobj)
  : EventData :=
  {| target := target; _data := _data |}.

End EventData.

Module SelectData.
Import Events.

Record SelectData := {
  base : EventData.EventData;
  index : pyobj;
  value : pyobj;
  selected : pyobj;
}.

(** [SelectData.__init__] *)
Definition __init__ (target : option block_ref) (data : gmap string pyobj)
  : built SelectData :=
  let base := EventData.__init__ target data in
  match getitem data "index" with
  | KeyError key => KeyError key
  | Built index =>
      match getitem data "value" with
      | KeyError key => KeyError key
      | Built value =>
          Built {| base := base; index := index; value := value;
                   selected := get data "selected" (PyBool true) |}
      end
  end.

End SelectData.

Module LikeData.
Import Events.

Record LikeData := {
  base : EventData.EventData;
  index : pyobj;
  value : pyobj;
  liked : pyobj;
}.

(** [LikeData.__init__] *)
Definition __init__ (target : option block_ref) (data : gmap string pyobj)
  : built LikeData :=
  let base := EventData.__init__ target data in
  match getitem data "index" with
  | KeyError key => KeyError key
  | Built index =>
      match getitem data "value" with
      | KeyError key => KeyError key
      | Built value =>
          Built {| base := base; index := index; value := value;
                   liked := get data "liked" (PyBool true) |}
      end
  end.

End LikeData.

(** ** Properties of the Radio component *)

Module RadioSpec.
Import Radio Samples.

Section Lists.
Context {V : Type} `{!PyScalar V}.
Implicit Types (x : V) (l : list V).

Lemma list_contains_true x l :
  list_contains x l = true ↔ ∃ i item, l !! i = Some item ∧ py_eq item x = true.
Proof.
  unfold list_contains. induction l as [|a l IH]; simpl.
  - split; [done|]. by intros (i & item & Hi & _).
  - rewrite orb_true_iff, IH. split.
    + intros [Ha | (i & item & Hi & Heq)].
      * by exists 0, a.
      * by exists (S i), item.
    + intros ([|i] & item & Hi & Heq); simpl in Hi.
      * left. congruence.
      * right. eauto.
Qed.

Lemma list_contains_false x l :
  list_contains x l = false ↔ ∀ item, item ∈ l → py_eq item x = false.
Proof.
  unfold list_contains. induction l as [|a l IH]; simpl.
  - split; [|done]. intros _ item Hin. by apply elem_of_nil in Hin.
  - rewrite orb_false_iff, IH. split.
    + intros [Ha Hl] item [->|Hin]%elem_of_cons; auto.
    + intros Hall. split; [apply Hall; left|intros item Hin; apply Hall; by right].
Qed.

(** [l.index(x)] is the first position that holds an item equal to [x]. *)
Lemma list_index_first x l i :
  list_index x l = Some i ↔
  (∃ item, l !! i = Some item ∧ py_eq item x = true) ∧
  (∀ j item, j < i → l !! j = Some item → py_eq item x = false).
Proof.
  revert i. induction l as [|a l IH]; intros i; simpl.
  - split; [done|]. by intros [(item & Hi & _) _].
  - destruct (py_eq a x) eqn:Ha.
    + split.
      * intros [= <-]. split; [by exists a|]. intros j item Hj. lia.
      * intros [(item & Hi & Heq) Hfirst]. destruct i as [|i]; [done|].
        specialize (Hfirst 0 a). simpl in Hfirst.
        rewrite Hfirst in Ha; [done|lia|done].
    + rewrite fmap_Some. split.
      * intros (k & Hk & ->). apply IH in Hk as [(item & Hi & Heq) Hfirst].
        split; [by exists item|].
        intros [|j] item' Hj Hlook; simpl in Hlook; [congruence|].
        apply (Hfirst j); [lia|done].
      * intros [(item & Hi & Heq) Hfirst].
        destruct i as [|i]; simpl in Hi; [congruence|].
        exists i. split; [|done]. apply IH. split; [by exists item|].
        intros j item' Hj Hlook. apply (Hfirst (S j)); [lia|done].
Qed.

(** Where [x in l] holds, [l.index(x)] does not raise. *)
Lemma list_index_total x l :
  list_contains x l = true → is_Some (list_index x l).
Proof.
  unfold list_contains. induction l as [|a l IH]; simpl; [done|].
  destruct (py_eq a x); simpl; [by eexists|].
  intros [k ->]%IH. by eexists.
Qed.

End Lists.

Section Properties.
Context {V : Type} `{!PyScalar V}.
Context {K B : Type} (super_init : K → result B).
Implicit Types (self : Radio V B) (x : option V).

Lemma index_is_not_value self :
  type self = "index" → bool_decide (type self = "value") = false.
Proof. intros ->. done. Qed.

(** C2. With [type="index"], [preprocess] succeeds on every input: it
    returns [None] for [None] and for a value that no configured choice
    value equals, and the position of the first choice value that equals
    the input when there is one. *)
Theorem preprocess_index_position self x :
  type self = "index" →
  ∃ r, preprocess self x = Ok r ∧
    (x = None → r = None) ∧
    (∀ v, x = Some v →
       (∀ item, item ∈ (snd <$> choices self) → py_eq item v = false) →
       r = None) ∧
    (∀ v i item, x = Some v →
       (snd <$> choices self) !! i = Some item → py_eq item v = true →
       (∀ j item', j < i → (snd <$> choices self) !! j = Some item' →
                   py_eq item' v = false) →
       r = Some (py_int (Z.of_nat i))).
Proof.
  intros Hty. unfold preprocess.
  rewrite (index_is_not_value _ Hty), bool_decide_eq_true_2 by done.
  destruct x as [v|].
  - destruct (list_contains v (snd <$> choices self)) eqn:Hin.
    + destruct (list_index_total _ _ Hin) as [k Hk]. rewrite Hk.
      eexists. split; [done|]. split; [done|]. split.
      * intros v' [= <-] Hnone.
        apply list_contains_false in Hnone. congruence.
      * intros v' i item [= <-] Hi Heq Hfirst. do 3 f_equal.
        assert (list_index v (snd <$> choices self) = Some i) as Hi'.
        { apply list_index_first. split; [by exists item|done]. }
        congruence.
    + eexists. split; [done|]. split; [done|]. split; [done|].
      intros v' i item [= <-] Hi Heq _.
      assert (list_contains v (snd <$> choices self) = true) as Hin'.
      { apply list_contains_true. eauto. }
      congruence.
  - eexists. split; [done|]. split; [done|]. split; [done|]. done.
Qed.

(** C10. With [type="value"], [preprocess] returns its input as it is,
    [None] and values that are not among the choices included, whatever
    the choices are. *)
Theorem preprocess_value_identity self x :
  type self = "value" → preprocess self x = Ok x.
Proof.
  intros Hty. unfold preprocess.
  rewrite bool_decide_eq_true_2 by done. reflexivity.
Qed.

(** In index mode [preprocess] returns: [index] is called only on a list
    that contains the value. *)
Lemma preprocess_index_returns self x :
  type self = "index" → ∃ r, preprocess self x = Ok r.
Proof.
  intros Hty. unfold preprocess.
  rewrite (index_is_not_value _ Hty), bool_decide_eq_true_2 by done.
  destruct x as [v|]; [|by eexists].
  destruct (list_contains v (snd <$> choices self)) eqn:Hin; [|by eexists].
  destruct (list_index_total _ _ Hin) as [k ->]. by eexists.
Qed.

(** The type of a constructed component is one of the two valid ones. *)
Lemma init_type choices ty kwargs self :
  __init__ super_init choices ty kwargs = Ok self →
  type self = "value" ∨ type self = "index".
Proof.
  unfold __init__. case_bool_decide as Hty; [done|].
  destruct (super_init kwargs); [|done]. intros [= <-]. simpl.
  unfold valid_types in Hty.
  apply elem_of_cons in Hty as [Hty|Hty]; [by left|right].
  by apply list_elem_of_singleton in Hty.
Qed.

(** C9. A component that [__init__] returned is never in the invalid
    state: [preprocess] returns on every input, so the [ValueError] of its
    last branch is not raised. *)
Theorem preprocess_never_invalid_state choices ty kwargs self x :
  __init__ super_init choices ty kwargs = Ok self →
  ∃ r, preprocess self x = Ok r.
Proof.
  intros [Hty|Hty]%init_type.
  - exists x. unfold preprocess. by rewrite bool_decide_eq_true_2.
  - by apply preprocess_index_returns.
Qed.

(** C6. A [type] other than ["value"] and ["index"] makes [__init__]
    raise the [ValueError] whose message lists the two valid values, and
    no component is returned; with one of the two, [__init__] goes on to
    the initialiser of the base class and, where that returns, returns the
    component with the choices in pair form and the type it was given. *)
Theorem init_validates_type choices (ty : string) kwargs :
  (ty ≠ "value" → ty ≠ "index" →
     __init__ super_init choices (Some ty) kwargs =
       Raise (ValueError ("Invalid value for parameter `type`: " +:+ ty +:+
                ". Please choose from one of: ['value', 'index']"))) ∧
  (ty = "value" ∨ ty = "index" →
     ∀ b, super_init kwargs = Ok b →
       __init__ super_init choices (Some ty) kwargs =
         Ok {| choices := normalise_choices choices; type := ty;
               base := b |}).
Proof.
  split.
  - intros Hv Hi. unfold __init__; simpl.
    rewrite bool_decide_eq_true_2; [done|].
    unfold valid_types. apply not_elem_of_cons. split; [done|].
    by rewrite list_elem_of_singleton.
  - intros Hty b Hb. unfold __init__; simpl.
    rewrite bool_decide_eq_false_2.
    + by rewrite Hb.
    + intros Hnot. apply Hnot. unfold valid_types.
      by rewrite elem_of_cons, list_elem_of_singleton.
Qed.

(** C8. [api_info] is [{"type": "string"}] for every component, whatever
    its choices are, numeric ones included. *)
Theorem api_info_string self :
  api_info self = {[ "type" := "string" ]} ∧
  ∀ choices' : list (string * V),
    api_info {| choices := choices'; type := type self; base := base self |}
    = api_info self.
Proof. split; [|intros choices']; reflexivity. Qed.

End Properties.

(** The scenario of the specification: choices [["a", "b", "c"]] and
    [type="index"]. *)
Example preprocess_b :
  preprocess Samples.radio_abc (Some (Str "b")) = Ok (Some (Int 1)).
Proof. reflexivity. Qed.

Example preprocess_z : preprocess Samples.radio_abc (Some (Str "z")) = Ok None.
Proof. reflexivity. Qed.

Example preprocess_none : preprocess Samples.radio_abc None = Ok None.
Proof. reflexivity. Qed.

(** A number is not the string that prints it. *)
Example preprocess_int_among_strings :
  preprocess
    {| choices := [("1", Str "1"); ("2", Int 2)]; type := "index";
       base := () |}
    (Some (Int 1)) = Ok None.
Proof. reflexivity. Qed.

Example example_inputs_abc : example_inputs Samples.radio_abc = Some (Str "a").
Proof. reflexivity. Qed.

Lemma example_inputs_empty {V B : Type} (self : Radio V B) :
  choices self = [] → example_inputs self = None.
Proof. unfold example_inputs. by intros ->. Qed.

Lemma preprocess_index_position_witness :
  type radio_abc = "index" ∧
  ∃ r, preprocess radio_abc (Some (Str "b")) = Ok r ∧
    (Some (Str "b") = None → r = None) ∧
    (∀ v, Some (Str "b") = Some v →
       (∀ item, item ∈ (snd <$> choices radio_abc) → py_eq item v = false) →
       r = None) ∧
    (∀ v i item, Some (Str "b") = Some v →
       (snd <$> choices radio_abc) !! i = Some item → py_eq item v = true →
       (∀ j item', j < i → (snd <$> choices radio_abc) !! j = Some item' →
                   py_eq item' v = false) →
       r = Some (py_int (Z.of_nat i))).
Proof.
  split; [reflexivity|].
  apply (preprocess_index_position radio_abc (Some (Str "b"))). reflexivity.
Defined.

Lemma preprocess_value_identity_witness :
  type radio_123 = "value" ∧
  preprocess radio_123 (Some (Str "absent")) = Ok (Some (Str "absent")).
Proof.
  split; [reflexivity|].
  apply (preprocess_value_identity radio_123 (Some (Str "absent"))).
  reflexivity.
Defined.

Lemma preprocess_never_invalid_state_witness :
  __init__ keep_kwargs
    (Some [Bare (Str "a"); Bare (Str "b"); Bare (Str "c")]) (Some "index") []
    = Ok radio_abc ∧
  ∃ r, preprocess radio_abc (Some (Str "z")) = Ok r.
Proof.
  split; [reflexivity|].
  apply (preprocess_never_invalid_state keep_kwargs
           (Some [Bare (Str "a"); Bare (Str "b"); Bare (Str "c")])
           (Some "index") [] radio_abc (Some (Str "z"))).
  reflexivity.
Defined.

Lemma init_validates_type_witness :
  __init__ (V := scalar) keep_kwargs None (Some "bogus") ([] : list string) =
    Raise (ValueError "Invalid value for parameter `type`: bogus. Please choose from one of: ['value', 'index']") ∧
  __init__ keep_kwargs
    (Some [Bare (Str "a"); Bare (Str "b"); Bare (Str "c")]) (Some "index") []
    = Ok radio_abc.
Proof.
  split.
  - apply (proj1 (init_validates_type (V := scalar) keep_kwargs None
                    "bogus" [])); discriminate.
  - exact (proj2 (init_validates_type keep_kwargs
                    (Some [Bare (Str "a"); Bare (Str "b"); Bare (Str "c")])
                    "index" []) (or_intror eq_refl) [] eq_refl).
Defined.

End RadioSpec.

(** ** Properties of the event listeners *)

Module EventsSpec.
Import Events Bindings.

Lemma set_cancel_events_run r name cancels w :
  set_cancel_events r name cancels w =
    Returns ()
      {| blocks := blocks w;
         dependencies := dependencies w ++ cancel_dependencies r name cancels;
         warnings := warnings w |}.
Proof.
  unfold set_cancel_events, cancel_dependencies, cancel_handles.
  destruct w as [bs ds ws]; simpl.
  destruct cancels as [|d|[|d ds']]; simpl.
  - by rewrite app_nil_r.
  - case_bool_decide; simpl; [done|]. by rewrite app_nil_r.
  - by rewrite app_nil_r.
  - done.
Qed.

(** What a binding that goes through does. *)
Lemma event_trigger_run l r fn a w :
  is_decorator fn = false → bindable w r = true →
  event_trigger l (Some r) fn a w =
    Returns
      (Dependency_init (Some r) (Some (bound_dependency l r fn a))
         (Some (length (dependencies w))) (HandleFn fn))
      {| blocks := after_callback l r (blocks w);
         dependencies :=
           dependencies w ++ bound_dependency l r fn a
             :: cancel_dependencies r (event_name l) (cancels a);
         warnings := warnings w ++ new_warnings l a |}.
Proof.
  intros Hfn Hb. unfold event_trigger. rewrite Hfn.
  unfold bindable in Hb. destruct w as [bs ds ws]; simpl in *.
  destruct (bs !! r) as [b|] eqn:Hr; [|done].
  unfold new_warnings, after_callback, mbind, M_bind, when, get_block,
    warn_deprecation, call_check_streamable, mret, M_ret; simpl.
  destruct (truthy (status_tracker a)); simpl;
    destruct (bool_decide (event_name l = "stop")); simpl;
    rewrite Hr; simpl;
    (destruct (check_streamable b) as [e|];
     [apply negb_true_iff in Hb; rewrite Hb|
      destruct (bool_decide ("stream" ∈ events b))]); simpl;
    rewrite set_cancel_events_run; simpl;
    (destruct (callback l) as [[name]|]; simpl);
    rewrite <- ?app_assoc, ?app_nil_r; done.
Qed.

Lemma trigger_kwargs_show_progress l a p :
  trigger_kwargs l a p !! "show_progress"
  = Some (show_progress_or p (show_progress l)).
Proof. reflexivity. Qed.

Lemma trigger_kwargs_trigger_after l a p :
  trigger_kwargs l a p !! "trigger_after"
  = Some (of_option of_nat (trigger_after l)).
Proof. reflexivity. Qed.

Lemma trigger_kwargs_only_on_success l a p :
  trigger_kwargs l a p !! "trigger_only_on_success"
  = Some (PyBool (trigger_only_on_success l)).
Proof. reflexivity. Qed.

(** A binding that goes through returns the handle of a record that sits
    in the table at the ordinal index of the handle; the records that were
    there stay, and at most the record of a cancellation follows. *)
Lemma event_trigger_registers l r fn a w :
  is_decorator fn = false → bindable w r = true →
  ∃ h w' dep,
    event_trigger l (Some r) fn a w = Returns h w' ∧
    h = Dependency_init (Some r) (Some dep) (Some (length (dependencies w)))
          (HandleFn fn) ∧
    dep = bound_dependency l r fn a ∧
    dependencies w' =
      dependencies w ++ dep
        :: cancel_dependencies r (event_name l) (cancels a) ∧
    dependencies w' !! length (dependencies w) = Some dep ∧
    blocks w' = after_callback l r (blocks w).
Proof.
  intros Hfn Hb. do 3 eexists. split; [by apply event_trigger_run|].
  simpl. repeat split. by apply list_lookup_middle.
Qed.

(** A boolean [show_progress] is coerced before the registration. *)
Lemma show_progress_bool_coerced l r fn kw w (b : bool) :
  kw_show_progress kw = Some (PyBool b) →
  is_decorator fn = false → bindable w r = true →
  ∃ h w' dep,
    listener l (Some r) fn kw w = Returns h w' ∧
    dependencies w' !! length (dependencies w) = Some dep ∧
    key_vals h = Some dep ∧
    dep_options dep !! "show_progress"
    = Some (PyStr (if b then "full" else "hidden")).
Proof.
  intros Hkw Hfn Hb. unfold listener.
  destruct (event_trigger_registers l r fn (bind_defaults kw) w Hfn Hb)
    as (h & w' & dep & Hrun & -> & -> & _ & Hlook & _).
  do 3 eexists. repeat split; [done..|].
  simpl. rewrite trigger_kwargs_show_progress, Hkw. simpl. by destruct b.
Qed.

(** An explicit [show_progress=None] takes the default of the event kind. *)
Lemma show_progress_none_default l r fn kw w :
  kw_show_progress kw = Some PyNone →
  is_decorator fn = false → bindable w r = true →
  ∃ h w' dep,
    listener l (Some r) fn kw w = Returns h w' ∧
    dependencies w' !! length (dependencies w) = Some dep ∧
    key_vals h = Some dep ∧
    dep_options dep !! "show_progress"
    = Some (of_option PyStr (show_progress l)).
Proof.
  intros Hkw Hfn Hb. unfold listener.
  destruct (event_trigger_registers l r fn (bind_defaults kw) w Hfn Hb)
    as (h & w' & dep & Hrun & -> & -> & _ & Hlook & _).
  do 3 eexists. repeat split; [done..|].
  simpl. by rewrite trigger_kwargs_show_progress, Hkw.
Qed.

(** C1. What the code does where the caller leaves [show_progress] out:
    the parameter takes its own default ["full"], and that is what the
    registered dependency carries, whatever default progress mode the
    event kind has.  The default of the event kind is reached only by an
    explicit [None] ([show_progress_none_default]); a boolean is coerced
    ([show_progress_bool_coerced]). *)
Theorem show_progress_left_out l r fn kw w :
  kw_show_progress kw = None →
  is_decorator fn = false → bindable w r = true →
  ∃ h w' dep,
    listener l (Some r) fn kw w = Returns h w' ∧
    dependencies w' !! length (dependencies w) = Some dep ∧
    key_vals h = Some dep ∧
    dep_options dep !! "show_progress" = Some (PyStr "full").
Proof.
  intros Hkw Hfn Hb. unfold listener.
  destruct (event_trigger_registers l r fn (bind_defaults kw) w Hfn Hb)
    as (h & w' & dep & Hrun & -> & -> & _ & Hlook & _).
  do 3 eexists. repeat split; [done..|].
  simpl. by rewrite trigger_kwargs_show_progress, Hkw.
Qed.

Lemma show_progress_left_out_witness :
  show_progress stream = Some "hidden" ∧
  ∃ h w' dep,
    listener stream (Some 0) (PyFn "predict") no_kwargs Samples.app
    = Returns h w' ∧
    dependencies w' !! 0 = Some dep ∧
    key_vals h = Some dep ∧
    dep_options dep !! "show_progress" = Some (PyStr "full").
Proof.
  split; [reflexivity|].
  apply (show_progress_left_out stream 0 (PyFn "predict") no_kwargs
           Samples.app); reflexivity.
Defined.

(** A binding returns only on a block where it goes through. *)
Lemma event_trigger_returns l r fn a w h w' :
  is_decorator fn = false →
  event_trigger l (Some r) fn a w = Returns h w' → bindable w r = true.
Proof.
  intros Hfn. unfold event_trigger, bindable. rewrite Hfn.
  destruct w as [bs ds ws]; simpl.
  unfold mbind, M_bind, when, get_block, warn_deprecation,
    call_check_streamable, mret, M_ret, raise; simpl.
  destruct (truthy (status_tracker a)); simpl;
    destruct (bool_decide (event_name l = "stop")); simpl;
    (destruct (bs !! r) as [b|]; simpl; [|done]);
    (destruct (check_streamable b) as [e|]; [|done]);
    destruct (bool_decide ("stream" ∈ events b)); simpl; done.
Qed.

(** The handle of a binding, an inversion of [event_trigger_registers]. *)
Lemma event_trigger_handle l r fn a w h w' :
  is_decorator fn = false →
  event_trigger l (Some r) fn a w = Returns h w' →
  ∃ dep,
    h = Dependency_init (Some r) (Some dep) (Some (length (dependencies w)))
          (HandleFn fn) ∧
    dependencies w' !! length (dependencies w) = Some dep.
Proof.
  intros Hfn Hrun.
  pose proof (event_trigger_returns _ _ _ _ _ _ _ Hfn Hrun) as Hb.
  destruct (event_trigger_registers l r fn a w Hfn Hb)
    as (h1 & w1 & dep & Hrun1 & -> & _ & _ & Hlook & _).
  rewrite Hrun in Hrun1. injection Hrun1 as -> ->. by exists dep.
Qed.

(** What a follow-up listener of a handle registers. *)
Lemma follow_up_registers l r fn kw w :
  is_decorator fn = false → bindable w r = true →
  ∃ h w' dep,
    listener l (Some r) fn kw w = Returns h w' ∧
    dependencies w' !! length (dependencies w) = Some dep ∧
    key_vals h = Some dep ∧
    dep_trigger dep = event_name l ∧
    dep_fn dep = fn ∧
    dep_options dep !! "trigger_after"
    = Some (of_option of_nat (trigger_after l)) ∧
    dep_options dep !! "trigger_only_on_success"
    = Some (PyBool (trigger_only_on_success l)).
Proof.
  intros Hfn Hb. unfold listener.
  destruct (event_trigger_registers l r fn (bind_defaults kw) w Hfn Hb)
    as (h & w' & dep & Hrun & -> & -> & _ & Hlook & _).
  do 3 eexists. repeat split; done.
Qed.

(** C4. A handle that a binding returned has an ordinal index [i], the
    position of its record in the table.  Its [then] registers a new
    dependency on the event ["then"] with [trigger_after = i] and
    [trigger_only_on_success = False]; its [success] registers one on the
    event ["success"] with [trigger_after = i] and
    [trigger_only_on_success = True]. *)
Theorem then_success_after_predecessor l0 r fn0 a0 w0 self w1 fn kw w :
  is_decorator fn0 = false →
  event_trigger l0 (Some r) fn0 a0 w0 = Returns self w1 →
  is_decorator fn = false → bindable w r = true →
  ∃ i, index self = Some i ∧ dependencies w1 !! i = key_vals self ∧
    (∃ h w' dep,
       Dependency_then self fn kw w = Returns h w' ∧
       dependencies w' !! length (dependencies w) = Some dep ∧
       key_vals h = Some dep ∧
       dep_trigger dep = "then" ∧ dep_fn dep = fn ∧
       dep_options dep !! "trigger_after" = Some (PyInt (Z.of_nat i)) ∧
       dep_options dep !! "trigger_only_on_success" = Some (PyBool false)) ∧
    (∃ h w' dep,
       Dependency_success self fn kw w = Returns h w' ∧
       dependencies w' !! length (dependencies w) = Some dep ∧
       key_vals h = Some dep ∧
       dep_trigger dep = "success" ∧ dep_fn dep = fn ∧
       dep_options dep !! "trigger_after" = Some (PyInt (Z.of_nat i)) ∧
       dep_options dep !! "trigger_only_on_success" = Some (PyBool true)).
Proof.
  intros Hfn0 Hrun0 Hfn Hb.
  destruct (event_trigger_handle _ _ _ _ _ _ _ Hfn0 Hrun0)
    as (dep0 & -> & Hlook0).
  exists (length (dependencies w0)). split; [done|]. split; [done|].
  unfold Dependency_then, Dependency_success; simpl. split.
  - apply (follow_up_registers
             (EventListener_init "then" None None
                (Some (Some (length (dependencies w0)))) (Some false))
             r fn kw w Hfn Hb).
  - apply (follow_up_registers
             (EventListener_init "success" None None
                (Some (Some (length (dependencies w0)))) (Some true))
             r fn kw w Hfn Hb).
Qed.

Lemma then_success_after_predecessor_witness :
  Samples.bind_run = Returns Samples.run Samples.app_run ∧
  ∃ i, index Samples.run = Some i ∧
    dependencies Samples.app_run !! i = key_vals Samples.run ∧
    (∃ h w' dep,
       Dependency_then Samples.run (PyFn "next_fn") no_kwargs Samples.app_run
       = Returns h w' ∧
       dependencies w' !! length (dependencies Samples.app_run) = Some dep ∧
       key_vals h = Some dep ∧
       dep_trigger dep = "then" ∧ dep_fn dep = PyFn "next_fn" ∧
       dep_options dep !! "trigger_after" = Some (PyInt (Z.of_nat i)) ∧
       dep_options dep !! "trigger_only_on_success" = Some (PyBool false)) ∧
    (∃ h w' dep,
       Dependency_success Samples.run (PyFn "next_fn") no_kwargs
         Samples.app_run
       = Returns h w' ∧
       dependencies w' !! length (dependencies Samples.app_run) = Some dep ∧
       key_vals h = Some dep ∧
       dep_trigger dep = "success" ∧ dep_fn dep = PyFn "next_fn" ∧
       dep_options dep !! "trigger_after" = Some (PyInt (Z.of_nat i)) ∧
       dep_options dep !! "trigger_only_on_success" = Some (PyBool true)).
Proof.
  split; [reflexivity|].
  apply (then_success_after_predecessor (Samples.of_name change) 1
           (PyFn "run_fn") (bind_defaults no_kwargs) Samples.app
           Samples.run Samples.app_run (PyFn "next_fn") no_kwargs
           Samples.app_run); reflexivity.
Defined.

(** The scenario of the specification: [api_name] goes to the record as
    it is given, [False], [None] or a name. *)
Lemma api_name_passed_on l r fn a w :
  is_decorator fn = false → bindable w r = true →
  ∃ h w' dep,
    event_trigger l (Some r) fn a w = Returns h w' ∧
    key_vals h = Some dep ∧
    dep_options dep !! "api_name" = Some (api_name a).
Proof.
  intros Hfn Hb.
  destruct (event_trigger_registers l r fn a w Hfn Hb)
    as (h & w' & dep & Hrun & -> & -> & _).
  do 3 eexists. repeat split; done.
Qed.

(** C3, amended.  A binding that goes through registers its own record
    and returns the handle of that record.  With a non-empty list of
    handles as [cancels] it registers exactly one more record, of which no
    handle is returned: on the same event of the same block, without
    inputs and outputs, with [queue=False], [preprocess=False] and the
    ordinal indices of the listed handles as its [cancels].  These three
    are all its options: it has no [postprocess] option, and no
    [api_name] option that would hide it.  With [cancels] empty or [None]
    (its value when it is left out) it registers nothing more. *)
Theorem cancels_register_one_more l r fn a w :
  is_decorator fn = false → bindable w r = true →
  ∃ h w' dep,
    event_trigger l (Some r) fn a w = Returns h w' ∧
    key_vals h = Some dep ∧
    (∀ d ds, cancels a = CancelsList (d :: ds) →
       ∃ extra targets,
         dependencies w' = dependencies w ++ [dep; extra] ∧
         dep_targets extra = r ∧ dep_trigger extra = event_name l ∧
         dep_inputs extra = CompNone ∧ dep_outputs extra = CompNone ∧
         dep_fn extra = PyCancelFn targets ∧
         dep_options extra !! "queue" = Some (PyBool false) ∧
         dep_options extra !! "preprocess" = Some (PyBool false) ∧
         dep_options extra !! "postprocess" = None ∧
         dep_options extra !! "api_name" = None ∧
         dom (dep_options extra)
         = ({[ "queue"; "preprocess"; "cancels" ]} : gset string) ∧
         dep_options extra !! "cancels" = Some (PyList targets) ∧
         ∀ o, o ∈ targets ↔
              ∃ d', d' ∈ d :: ds ∧ o = of_option of_nat (index d')) ∧
    (cancels a = CancelsList [] ∨ cancels a = CancelsNone →
       dependencies w' = dependencies w ++ [dep]).
Proof.
  intros Hfn Hb.
  destruct (event_trigger_registers l r fn a w Hfn Hb)
    as (h & w' & dep & Hrun & -> & _ & Hdeps & _ & _).
  eexists _, w', dep. split; [done|]. split; [done|]. split.
  - intros d ds Hc. rewrite Hc in Hdeps.
    exists (cancel_dependency r (event_name l) (d :: ds)),
      ((λ d, of_option of_nat (index d)) <$> d :: ds).
    split; [done|]. do 9 (split; [reflexivity|]).
    split.
    { simpl. rewrite !dom_insert_L, dom_singleton_L. set_solver. }
    split; [reflexivity|].
    intros o. rewrite list_elem_of_fmap. split.
    + intros (d' & -> & Hin). eauto.
    + intros (d' & Hin & ->). eauto.
  - intros [Hc|Hc]; by rewrite Hc in Hdeps.
Qed.

Lemma cancels_register_one_more_witness :
  ∃ h w' dep,
    event_trigger (Samples.of_name click) (Some 1) (PyFn "halt")
      (bind_defaults Samples.cancels_run) Samples.app_run = Returns h w' ∧
    key_vals h = Some dep ∧
    (∀ d ds, CancelsList [Samples.run] = CancelsList (d :: ds) →
       ∃ extra targets,
         dependencies w' = dependencies Samples.app_run ++ [dep; extra] ∧
         dep_targets extra = 1 ∧ dep_trigger extra = "click" ∧
         dep_inputs extra = CompNone ∧ dep_outputs extra = CompNone ∧
         dep_fn extra = PyCancelFn targets ∧
         dep_options extra !! "queue" = Some (PyBool false) ∧
         dep_options extra !! "preprocess" = Some (PyBool false) ∧
         dep_options extra !! "postprocess" = None ∧
         dep_options extra !! "api_name" = None ∧
         dom (dep_options extra)
         = ({[ "queue"; "preprocess"; "cancels" ]} : gset string) ∧
         dep_options extra !! "cancels" = Some (PyList targets) ∧
         ∀ o, o ∈ targets ↔
              ∃ d', d' ∈ d :: ds ∧ o = of_option of_nat (index d')) ∧
    (CancelsList [Samples.run] = CancelsList [] ∨
     CancelsList [Samples.run] = CancelsNone →
       dependencies w' = dependencies Samples.app_run ++ [dep]).
Proof.
  apply (cancels_register_one_more (Samples.of_name click) 1 (PyFn "halt")
           (bind_defaults Samples.cancels_run) Samples.app_run);
    reflexivity.
Defined.

(** C3 as the claim has it fails: with [cancels=[run]] the record of the
    cancellation has [preprocess=False], and neither [postprocess=False]
    nor the [api_name=False] of a hidden dependency. *)
Lemma cancel_dependency_postprocess_unset :
  ∃ h w' extra,
    listener (Samples.of_name click) (Some 1) (PyFn "halt")
      Samples.cancels_run Samples.app_run = Returns h w' ∧
    dependencies w' !! 2 = Some extra ∧
    dep_fn extra = PyCancelFn [PyInt 0] ∧
    dep_options extra !! "preprocess" = Some (PyBool false) ∧
    dep_options extra !! "postprocess" ≠ Some (PyBool false) ∧
    dep_options extra !! "api_name" ≠ Some (PyBool false).
Proof.
  do 3 eexists. split; [vm_compute; reflexivity|].
  split; [reflexivity|]. split; [reflexivity|]. split; [reflexivity|].
  split; discriminate.
Qed.

(** C5, amended.  Called with [fn == "decorator"], the binder registers
    nothing and returns a handle.  Calling the handle on a function [func]
    calls the binder again with [func] as [fn] and every other argument as
    it was, and returns the closure [inner], a new function that calls
    [func] with the arguments it is given and returns what [func]
    returns.  On a block where a binding goes through, that call registers
    [func]: the table gets, after the records it has, a record with [func]
    as its function, on the event of the listener and the block of the
    first call, with the inputs, the outputs and the options of the first
    call. *)
Theorem decorator_binds_and_wraps l block fn a w :
  is_decorator fn = true →
  ∃ h,
    event_trigger l block fn a w = Returns h w ∧
    ∀ apply_fn func w1,
      __call__ apply_fn h [func] w1 =
        match event_trigger l block func a w1 with
        | Returns _ w2 => Returns (PyInner func) w2
        | Raises e w2 => Raises e w2
        end ∧
      (∀ args, call apply_fn (PyInner func) args = call apply_fn func args) ∧
      (∀ r, block = Some r → is_decorator func = false →
         bindable w1 r = true →
         ∃ w2 dep,
           __call__ apply_fn h [func] w1 = Returns (PyInner func) w2 ∧
           dependencies w2 !! length (dependencies w1) = Some dep ∧
           (∃ rest, dependencies w2 = dependencies w1 ++ dep :: rest) ∧
           dep_fn dep = func ∧ dep_targets dep = r ∧
           dep_trigger dep = event_name l ∧
           dep_inputs dep = inputs a ∧ dep_outputs dep = outputs a ∧
           dep_options dep !! "preprocess" = Some (PyBool (preprocess a)) ∧
           dep_options dep !! "postprocess"
           = Some (PyBool (postprocess a)) ∧
           dep_options dep !! "scroll_to_output"
           = Some (PyBool (scroll_to_output a)) ∧
           dep_options dep !! "show_progress"
           = Some (show_progress_or
                     (coerce_show_progress (show_progress_arg a))
                     (show_progress l)) ∧
           dep_options dep !! "api_name" = Some (api_name a) ∧
           dep_options dep !! "js" = Some (of_option PyStr (_js a)) ∧
           dep_options dep !! "queue" = Some (of_option PyBool (queue a)) ∧
           dep_options dep !! "batch" = Some (PyBool (batch a)) ∧
           dep_options dep !! "max_batch_size"
           = Some (PyInt (max_batch_size a)) ∧
           dep_options dep !! "every"
           = Some (of_option PyFloat (every a))).
Proof.
  intros Hfn. unfold event_trigger at 1. rewrite Hfn.
  eexists. split; [reflexivity|].
  intros apply_fn func w1. split; [reflexivity|]. split; [reflexivity|].
  intros r -> Hfunc Hb.
  destruct (event_trigger_registers l r func a w1 Hfunc Hb)
    as (h' & w2 & dep & Hrun & _ & -> & Hdeps & Hlook & _).
  unfold __call__, Dependency_init; cbn [Events.fn].
  unfold wrapper, mbind, M_bind. rewrite Hrun.
  exists w2, (bound_dependency l r func a).
  split; [reflexivity|]. split; [exact Hlook|].
  split; [by eexists|]. repeat split.
Qed.

Lemma decorator_binds_and_wraps_witness :
  ∃ h,
    event_trigger (Samples.of_name click) (Some 1) (PyStr "decorator")
      (bind_defaults no_kwargs) Samples.app = Returns h Samples.app ∧
    ∀ apply_fn func w1,
      __call__ apply_fn h [func] w1 =
        match event_trigger (Samples.of_name click) (Some 1) func
                (bind_defaults no_kwargs) w1 with
        | Returns _ w2 => Returns (PyInner func) w2
        | Raises e w2 => Raises e w2
        end ∧
      (∀ args, call apply_fn (PyInner func) args = call apply_fn func args) ∧
      (∀ r, Some 1 = Some r → is_decorator func = false →
         bindable w1 r = true →
         ∃ w2 dep,
           __call__ apply_fn h [func] w1 = Returns (PyInner func) w2 ∧
           dependencies w2 !! length (dependencies w1) = Some dep ∧
           (∃ rest, dependencies w2 = dependencies w1 ++ dep :: rest) ∧
           dep_fn dep = func ∧ dep_targets dep = r ∧
           dep_trigger dep = event_name (Samples.of_name click) ∧
           dep_inputs dep = inputs (bind_defaults no_kwargs) ∧ dep_outputs dep = outputs (bind_defaults no_kwargs) ∧
           dep_options dep !! "preprocess" = Some (PyBool (preprocess (bind_defaults no_kwargs))) ∧
           dep_options dep !! "postprocess"
           = Some (PyBool (postprocess (bind_defaults no_kwargs))) ∧
           dep_options dep !! "scroll_to_output"
           = Some (PyBool (scroll_to_output (bind_defaults no_kwargs))) ∧
           dep_options dep !! "show_progress"
           = Some (show_progress_or
                     (coerce_show_progress (show_progress_arg (bind_defaults no_kwargs)))
                     (show_progress (Samples.of_name click))) ∧
           dep_options dep !! "api_name" = Some (api_name (bind_defaults no_kwargs)) ∧
           dep_options dep !! "js" = Some (of_option PyStr (_js (bind_defaults no_kwargs))) ∧
           dep_options dep !! "queue" = Some (of_option PyBool (queue (bind_defaults no_kwargs))) ∧
           dep_options dep !! "batch" = Some (PyBool (batch (bind_defaults no_kwargs))) ∧
           dep_options dep !! "max_batch_size"
           = Some (PyInt (max_batch_size (bind_defaults no_kwargs))) ∧
           dep_options dep !! "every"
           = Some (of_option PyFloat (every (bind_defaults no_kwargs)))).
Proof.
  apply (decorator_binds_and_wraps (Samples.of_name click) (Some 1)
           (PyStr "decorator") (bind_defaults no_kwargs) Samples.app).
  reflexivity.
Defined.

(** C5 as the claim has it fails: the decorator applied to [greet]
    registers [greet], and what it returns is not [greet] but the closure
    [inner] around it. *)
Lemma decorator_returns_inner :
  ∃ h w1,
    listener (Samples.of_name click) (Some 1) (PyStr "decorator") no_kwargs
      Samples.app = Returns h Samples.app ∧
    __call__ Samples.return_none h [PyFn "greet"] Samples.app
    = Returns (PyInner (PyFn "greet")) w1 ∧
    dep_fn <$> dependencies w1 = [PyFn "greet"] ∧
    PyInner (PyFn "greet") ≠ PyFn "greet".
Proof.
  do 2 eexists. split; [reflexivity|]. split; [vm_compute; reflexivity|].
  split; [reflexivity|]. discriminate.
Qed.

(** The callback of [select] keeps a block bindable. *)
Lemma bindable_after_callback l r w w' :
  bindable w r = true → blocks w' = after_callback l r (blocks w) →
  bindable w' r = true.
Proof.
  unfold bindable, after_callback. intros Hb ->.
  destruct (callback l) as [[name]|]; [|done].
  rewrite lookup_alter_eq. by destruct (blocks w !! r) as [b|].
Qed.

Lemma set_flag_idemp name b : set_flag name (set_flag name b) = set_flag name b.
Proof. unfold set_flag; simpl. f_equal. apply insert_insert_eq. Qed.

(** Running the callback again changes no block. *)
Lemma after_callback_idemp l r (bs : gmap block_ref Block) :
  after_callback l r (after_callback l r bs) = after_callback l r bs.
Proof.
  unfold after_callback. destruct (callback l) as [[name]|]; [|done].
  apply map_eq. intros i. destruct (decide (i = r)) as [->|Hne].
  - rewrite !lookup_alter_eq. destruct (bs !! r) as [b|]; simpl; [|done].
    by rewrite set_flag_idemp.
  - by rewrite !lookup_alter_ne.
Qed.

(** C7. Binding ["select"] on a component sets its attribute
    [selectable] to [True]; binding it once more leaves the blocks of the
    application, and so the flag, as the first binding left them. *)
Theorem select_sets_selectable r fn kw w :
  is_decorator fn = false → bindable w r = true →
  ∃ h1 w1,
    listener select (Some r) fn kw w = Returns h1 w1 ∧
    (∃ b1, blocks w1 !! r = Some b1 ∧
           attrs b1 !! "selectable" = Some (PyBool true)) ∧
    ∀ fn' kw', is_decorator fn' = false →
      ∃ h2 w2,
        listener select (Some r) fn' kw' w1 = Returns h2 w2 ∧
        blocks w2 = blocks w1.
Proof.
  intros Hfn Hb. unfold listener.
  destruct (event_trigger_registers select r fn (bind_defaults kw) w Hfn Hb)
    as (h1 & w1 & dep1 & Hrun1 & _ & _ & _ & _ & Hbs1).
  exists h1, w1. split; [done|]. split.
  - rewrite Hbs1. unfold after_callback; simpl. rewrite lookup_alter_eq.
    unfold bindable in Hb. destruct (blocks w !! r) as [b|]; [|done].
    eexists. split; [done|]. simpl. apply lookup_insert_eq.
  - intros fn' kw' Hfn'.
    pose proof (bindable_after_callback select r w w1 Hb Hbs1) as Hb1.
    destruct (event_trigger_registers select r fn' (bind_defaults kw') w1
                Hfn' Hb1)
      as (h2 & w2 & dep2 & Hrun2 & _ & _ & _ & _ & Hbs2).
    exists h2, w2. split; [done|].
    rewrite Hbs2, Hbs1. apply after_callback_idemp.
Qed.

Lemma select_sets_selectable_witness :
  ∃ h1 w1,
    listener select (Some 1) (PyFn "on_select") no_kwargs Samples.app
    = Returns h1 w1 ∧
    (∃ b1, blocks w1 !! 1 = Some b1 ∧
           attrs b1 !! "selectable" = Some (PyBool true)) ∧
    ∀ fn' kw', is_decorator fn' = false →
      ∃ h2 w2,
        listener select (Some 1) fn' kw' w1 = Returns h2 w2 ∧
        blocks w2 = blocks w1.
Proof.
  apply (select_sets_selectable 1 (PyFn "on_select") no_kwargs Samples.app);
    reflexivity.
Defined.

End EventsSpec.

(** ** Further properties of the Radio component *)

Module RadioExtras.
Import Radio RadioUpdate Samples RadioSpec.

Section Properties.
Context {V : Type} `{!PyScalar V}.
Context {K B : Type} (super_init : K → result B).
Implicit Types (self : Radio V B) (x : option V).

(** What [__init__] returns has the choices in pair form, in the order
    they were given. *)
Lemma init_choices choices ty kwargs self :
  __init__ super_init choices ty kwargs = Ok self →
  Radio.choices self = normalise_choices choices.
Proof.
  unfold __init__. case_bool_decide; [done|].
  destruct (super_init kwargs); [|done]. by intros [= <-].
Qed.

Lemma normalise_choices_Some (l : list (choice_arg V)) :
  normalise_choices (Some l) = normalise_choice <$> l.
Proof. by destruct l. Qed.

(** X1. In index mode, what [preprocess] returns for a value is either
    [None] or a position within the choices, and the choice at that
    position has a value equal to the input. *)
Theorem preprocess_index_sound self v r :
  type self = "index" →
  preprocess self (Some v) = Ok (Some r) →
  ∃ i name item,
    r = py_int (Z.of_nat i) ∧ i < length (choices self) ∧
    choices self !! i = Some (name, item) ∧ py_eq item v = true.
Proof.
  intros Hty. unfold preprocess.
  rewrite (index_is_not_value _ Hty), bool_decide_eq_true_2 by done.
  destruct (list_contains v (snd <$> choices self)) eqn:Hin; [|done].
  destruct (list_index v (snd <$> choices self)) as [i|] eqn:Hi; [|done].
  intros [= <-].
  apply list_index_first in Hi as [(item & Hlook & Heq) _].
  apply list_lookup_fmap_Some in Hlook as ([name item'] & -> & Hlook).
  exists i, name, item'. split; [done|]. split; [|done].
  by apply lookup_lt_Some in Hlook.
Qed.

(** X2. A component built with [type="index"] from a list of choices
    maps the value of the choice at position [i] back to [i], where that
    value equals itself and no earlier choice has an equal value. *)
Theorem init_preprocess_round_trip (l : list (choice_arg V)) kwargs self
    (i : nat) (c : choice_arg V) :
  __init__ super_init (Some l) (Some "index") kwargs = Ok self →
  l !! i = Some c →
  py_eq (normalise_choice c).2 (normalise_choice c).2 = true →
  (∀ j c', j < i → l !! j = Some c' →
     py_eq (normalise_choice c').2 (normalise_choice c).2 = false) →
  preprocess self (Some (normalise_choice c).2)
  = Ok (Some (py_int (Z.of_nat i))).
Proof.
  intros Hinit Hi Hrefl Hfirst.
  pose proof (init_choices _ _ _ _ Hinit) as Hch.
  rewrite normalise_choices_Some in Hch.
  destruct (init_type super_init _ _ _ _ Hinit) as [Hty|Hty].
  { unfold __init__ in Hinit; simpl in Hinit.
    destruct (super_init kwargs); [|done]. by injection Hinit as <-. }
  unfold preprocess.
  rewrite (index_is_not_value _ Hty), bool_decide_eq_true_2 by done.
  set (v := (normalise_choice c).2) in *.
  assert (list_index v (snd <$> choices self) = Some i) as Hidx.
  { apply list_index_first. rewrite Hch. split.
    - exists v. split; [|done].
      by rewrite !list_lookup_fmap, Hi.
    - intros j item Hj Hlook.
      rewrite !list_lookup_fmap in Hlook.
      destruct (l !! j) as [c'|] eqn:Hc'; [|done].
      injection Hlook as <-. by apply (Hfirst j). }
  assert (list_contains v (snd <$> choices self) = true) as ->.
  { apply list_contains_true.
    apply list_index_first in Hidx as [(item & Hlook & Heq) _]. eauto. }
  by rewrite Hidx.
Qed.

(** X3. The example of a component that [__init__] returned is the value
    of the first choice it was given, and [None] when it was given no
    choices or an empty list. *)
Theorem init_example_inputs choices ty kwargs self :
  __init__ super_init choices ty kwargs = Ok self →
  (choices = None ∨ choices = Some [] → example_inputs self = None) ∧
  (∀ c l, choices = Some (c :: l) →
     example_inputs self = Some (normalise_choice c).2).
Proof.
  intros Hinit. pose proof (init_choices _ _ _ _ Hinit) as Hch.
  unfold example_inputs. rewrite Hch. split.
  - by intros [->| ->].
  - intros c l ->. simpl. by destruct (normalise_choice c).
Qed.

(** X4. In index mode the example of a component is preprocessed to the
    position 0, where the example equals itself. *)
Theorem example_inputs_index_zero self v :
  type self = "index" → example_inputs self = Some v → py_eq v v = true →
  preprocess self (Some v) = Ok (Some (py_int 0)).
Proof.
  intros Hty Hex Hrefl. unfold preprocess.
  rewrite (index_is_not_value _ Hty), bool_decide_eq_true_2 by done.
  unfold example_inputs in Hex.
  destruct (choices self) as [|[name v'] l]; [done|].
  injection Hex as ->. simpl. unfold list_contains; simpl.
  by rewrite Hrefl.
Qed.

(** X5. A component built without [type] is in value mode: it returns
    every input of [preprocess] as it is. *)
Theorem init_default_type choices kwargs self x :
  __init__ super_init choices None kwargs = Ok self →
  type self = "value" ∧ preprocess self x = Ok x.
Proof.
  unfold __init__; simpl. destruct (super_init kwargs); [|done].
  intros [= <-]. split; reflexivity.
Qed.

(** X6. [update] emits its deprecation warning and tags the mapping with
    ["__type__": "update"].  For a non-empty list its ["choices"] are the
    choices of a component built from the same list; [None] stays [None]
    where [__init__] makes it the empty list. *)
Theorem update_choices value choices label info show_label container
    scale min_width interactive visible :
  (update value choices label info show_label container scale min_width
     interactive visible).1 = [update_msg] ∧
  (update value choices label info show_label container scale min_width
     interactive visible).2 !! "__type__" = Some (FStr "update") ∧
  (choices = None →
     (update value choices label info show_label container scale min_width
        interactive visible).2 !! "choices" = Some FNone) ∧
  (∀ l ty kwargs self, choices = Some l →
     __init__ super_init (Some l) ty kwargs = Ok self →
     (update value choices label info show_label container scale min_width
        interactive visible).2 !! "choices"
     = Some (FChoices (Radio.choices self))).
Proof.
  simpl. split; [done|]. split; [done|]. split.
  - by intros ->.
  - intros l ty kwargs self -> Hinit.
    rewrite (init_choices _ _ _ _ Hinit), normalise_choices_Some. done.
Qed.

End Properties.

Lemma preprocess_index_sound_witness :
  type radio_abc = "index" ∧
  preprocess radio_abc (Some (Str "b")) = Ok (Some (Int 1)) ∧
  ∃ i name item,
    Int 1 = py_int (Z.of_nat i) ∧ i < length (choices radio_abc) ∧
    choices radio_abc !! i = Some (name, item) ∧
    py_eq item (Str "b") = true.
Proof.
  split; [reflexivity|]. split; [reflexivity|].
  apply (preprocess_index_sound radio_abc (Str "b") (Int 1)); reflexivity.
Defined.

Lemma init_preprocess_round_trip_witness :
  __init__ keep_kwargs
    (Some [Bare (Str "a"); Bare (Str "b"); Bare (Str "c")]) (Some "index") []
    = Ok radio_abc ∧
  preprocess radio_abc (Some (Str "b")) = Ok (Some (Int 1)).
Proof.
  split; [reflexivity|].
  refine (init_preprocess_round_trip keep_kwargs
            [Bare (Str "a"); Bare (Str "b"); Bare (Str "c")] [] radio_abc
            1 (Bare (Str "b")) eq_refl eq_refl eq_refl _).
  intros [|j] c' Hj Hlook; [|lia]. by injection Hlook as <-.
Defined.

Lemma init_example_inputs_witness :
  __init__ keep_kwargs
    (Some [Bare (Str "a"); Bare (Str "b"); Bare (Str "c")]) (Some "index") []
    = Ok radio_abc ∧
  example_inputs radio_abc = Some (Str "a").
Proof.
  split; [reflexivity|].
  exact (proj2 (init_example_inputs keep_kwargs
                  (Some [Bare (Str "a"); Bare (Str "b"); Bare (Str "c")])
                  (Some "index") [] radio_abc eq_refl)
           (Bare (Str "a")) [Bare (Str "b"); Bare (Str "c")] eq_refl).
Defined.

Lemma example_inputs_index_zero_witness :
  type radio_abc = "index" ∧ example_inputs radio_abc = Some (Str "a") ∧
  preprocess radio_abc (Some (Str "a")) = Ok (Some (Int 0)).
Proof.
  split; [reflexivity|]. split; [reflexivity|].
  exact (example_inputs_index_zero radio_abc (Str "a")
           eq_refl eq_refl eq_refl).
Defined.

Lemma init_default_type_witness :
  __init__ keep_kwargs
    (Some [Bare (Int 1); Bare (Int 2); Bare (Int 3)]) None []
    = Ok radio_123 ∧
  type radio_123 = "value" ∧
  preprocess radio_123 (Some (Int 7)) = Ok (Some (Int 7)).
Proof.
  split; [reflexivity|].
  exact (init_default_type keep_kwargs
           (Some [Bare (Int 1); Bare (Int 2); Bare (Int 3)]) [] radio_123
           (Some (Int 7)) eq_refl).
Defined.

End RadioExtras.

(** ** Further properties of the event listeners *)

Module EventsExtras.
Import Events Bindings Samples EventsSpec.
Set Warnings "-clear-no-such-hyp".

Definition no_events_msg : string :=
  "'NoneType' object has no attribute 'events'".

(** An application with an image that declares ["stream"] and whose hook
    raises, as the source of the image is not the webcam. *)
Definition not_webcam : exn :=
  ValueError "Image streaming only available if source is 'webcam'.".

Definition uploaded : Block :=
  {| events := ["stream"; change]; attrs := ∅;
     check_streamable := Some not_webcam |}.

Definition app_uploaded : World :=
  {| blocks := {[ 0 := uploaded; 1 := radio ]}; dependencies := [];
     warnings := [] |}.

(** The keyword arguments [status_tracker=1], [show_progress=False]. *)
Definition tracked : call_kwargs :=
  {| kw_inputs := None; kw_outputs := None; kw_api_name := None;
     kw_status_tracker := Some (PyInt 1); kw_scroll_to_output := None;
     kw_show_progress := Some (PyBool false); kw_queue := None;
     kw_batch := None; kw_max_batch_size := None; kw_preprocess := None;
     kw_postprocess := None; kw_cancels := None; kw_every := None;
     kw__js := None |}.

(** The keyword arguments that name [show_progress] alone. *)
Definition progress (show_progress : pyobj) : call_kwargs :=
  {| kw_inputs := None; kw_outputs := None; kw_api_name := None;
     kw_status_tracker := None; kw_scroll_to_output := None;
     kw_show_progress := Some show_progress; kw_queue := None;
     kw_batch := None; kw_max_batch_size := None; kw_preprocess := None;
     kw_postprocess := None; kw_cancels := None; kw_every := None;
     kw__js := None |}.

(** The handle of [radio.change("decorator")]. *)
Definition decorator_handle : Dependency :=
  Dependency_init None None None
    (Wrapper (of_name change) (Some 1) (bind_defaults no_kwargs)).

(** The data of a selection, and of one that lacks its value. *)
Definition picked : gmap string pyobj :=
  {[ "index" := PyInt 1; "value" := PyStr "b"; "selected" := PyBool false ]}.

Definition no_value : gmap string pyobj := {[ "index" := PyInt 1 ]}.

Ltac run_binder :=
  unfold mbind, M_bind, when, get_block, warn_deprecation,
    call_check_streamable, mret, M_ret, raise; simpl.

(** A binding on a block that declares ["stream"] and whose hook raises. *)
Lemma event_trigger_check_raises l r fn a w b e :
  is_decorator fn = false → blocks w !! r = Some b →
  "stream" ∈ events b → check_streamable b = Some e →
  event_trigger l (Some r) fn a w =
    Raises e {| blocks := blocks w; dependencies := dependencies w;
                warnings := warnings w ++ new_warnings l a |}.
Proof.
  intros Hfn Hb Hin He. unfold event_trigger, new_warnings. rewrite Hfn.
  destruct w as [bs ds ws]; simpl in *. run_binder.
  destruct (truthy (status_tracker a)); simpl;
    destruct (bool_decide (event_name l = "stop")); simpl;
    rewrite Hb; simpl; rewrite bool_decide_eq_true_2 by done; simpl;
    rewrite He; simpl; rewrite <- ?app_assoc, ?app_nil_r; done.
Qed.

(** A binding on [None]. *)
Lemma event_trigger_on_none l fn a w :
  is_decorator fn = false →
  event_trigger l None fn a w =
    Raises (AttributeError no_events_msg)
      {| blocks := blocks w; dependencies := dependencies w;
         warnings := warnings w ++ new_warnings l a |}.
Proof.
  intros Hfn. unfold event_trigger, new_warnings. rewrite Hfn.
  destruct w as [bs ds ws]; simpl in *. run_binder.
  destruct (truthy (status_tracker a)); simpl;
    destruct (bool_decide (event_name l = "stop")); simpl;
    rewrite <- ?app_assoc, ?app_nil_r; done.
Qed.

(** X8. Where the hook [check_streamable] of a block that declares
    ["stream"] raises, the binding raises the same exception, and neither
    a dependency is registered nor a block changed. *)
Theorem check_streamable_raises l r fn a w b e :
  is_decorator fn = false → blocks w !! r = Some b →
  "stream" ∈ events b → check_streamable b = Some e →
  ∃ w', event_trigger l (Some r) fn a w = Raises e w' ∧
        dependencies w' = dependencies w ∧ blocks w' = blocks w.
Proof.
  intros Hfn Hb Hin He. eexists. split.
  - by eapply event_trigger_check_raises.
  - done.
Qed.

(** X9. The handle that a call with [fn == "decorator"] returns is bound
    to no block: its [then] and its [success] raise [AttributeError] and
    register nothing. *)
Theorem decorator_handle_then_raises l block fn a w h w0 fn' kw w1 :
  is_decorator fn = true →
  event_trigger l block fn a w = Returns h w0 →
  is_decorator fn' = false →
  (∃ w', Dependency_then h fn' kw w1
         = Raises (AttributeError no_events_msg) w' ∧
         dependencies w' = dependencies w1 ∧ blocks w' = blocks w1) ∧
  (∃ w', Dependency_success h fn' kw w1
         = Raises (AttributeError no_events_msg) w' ∧
         dependencies w' = dependencies w1 ∧ blocks w' = blocks w1).
Proof.
  intros Hfn Hrun Hfn'. unfold event_trigger in Hrun. rewrite Hfn in Hrun.
  injection Hrun as <- <-.
  unfold Dependency_then, Dependency_success, listener; simpl.
  split; eexists; (split; [by apply event_trigger_on_none|done]).
Qed.

(** X10. A binding that goes through emits the deprecation warning of
    [status_tracker] exactly when that argument is true, and the one of
    the event ["stop"] exactly when that is the event. *)
Theorem bind_warnings l r fn a w :
  is_decorator fn = false → bindable w r = true →
  ∃ h w' ws,
    event_trigger l (Some r) fn a w = Returns h w' ∧
    warnings w' = warnings w ++ ws ∧
    (status_tracker_msg ∈ ws ↔ truthy (status_tracker a) = true) ∧
    (stop_msg ∈ ws ↔ event_name l = "stop").
Proof.
  intros Hfn Hb. eexists _, _, (new_warnings l a).
  split; [by apply event_trigger_run|]. split; [done|].
  unfold new_warnings.
  destruct (truthy (status_tracker a)); case_bool_decide as Hstop; simpl;
    rewrite ?elem_of_cons, ?elem_of_nil; split; naive_solver.
Qed.

(** X11. A binding that goes through changes at most one attribute of
    one block: the flag that the callback of the listener sets to [True]
    on the block that is bound.  The events and the hook of that block and
    every other block stay as they are; a listener without callback, as
    those of [then] and [success], changes no block. *)
Theorem bind_sets_one_flag l r fn a w b :
  is_decorator fn = false → bindable w r = true →
  blocks w !! r = Some b →
  ∃ h w' b',
    event_trigger l (Some r) fn a w = Returns h w' ∧
    blocks w' !! r = Some b' ∧
    events b' = events b ∧ check_streamable b' = check_streamable b ∧
    (∀ name, callback l = Some (SetAttrTrue name) →
       attrs b' = <[name := PyBool true]> (attrs b)) ∧
    (callback l = None → blocks w' = blocks w) ∧
    (∀ r', r' ≠ r → blocks w' !! r' = blocks w !! r').
Proof.
  intros Hfn Hbind Hb.
  destruct (event_trigger_registers l r fn a w Hfn Hbind)
    as (h & w' & dep & Hrun & _ & _ & _ & _ & Hbs).
  unfold after_callback in Hbs.
  destruct (callback l) as [[name]|].
  - exists h, w', (set_flag name b). split; [done|].
    rewrite Hbs, lookup_alter_eq, Hb. repeat split; try done.
    + by intros name' [= <-].
    + intros r' Hne. by rewrite lookup_alter_ne.
  - exists h, w', b. rewrite Hbs. repeat split; done.
Qed.

(** X12. The record of a binding has the twelve options that
    [event_trigger] passes by keyword and no other: [cancels],
    [status_tracker] and [_js] are not among them, the last going under
    the name [js]. *)
Theorem bind_options_keys l r fn a w :
  is_decorator fn = false → bindable w r = true →
  ∃ h w' dep,
    event_trigger l (Some r) fn a w = Returns h w' ∧
    key_vals h = Some dep ∧
    dom (dep_options dep) =
      ({[ "preprocess"; "postprocess"; "scroll_to_output"; "show_progress";
          "api_name"; "js"; "queue"; "batch"; "max_batch_size"; "every";
          "trigger_after"; "trigger_only_on_success" ]} : gset string) ∧
    dep_options dep !! "js" = Some (of_option PyStr (_js a)) ∧
    dep_targets dep = r ∧ dep_trigger dep = event_name l ∧
    dep_fn dep = fn ∧ dep_inputs dep = inputs a ∧
    dep_outputs dep = outputs a.
Proof.
  intros Hfn Hb.
  destruct (event_trigger_registers l r fn a w Hfn Hb)
    as (h & w' & dep & Hrun & -> & -> & _).
  do 3 eexists. split; [done|]. split; [done|].
  split; [|repeat split]. simpl. unfold trigger_kwargs.
  rewrite !dom_insert_L, dom_singleton_L. set_solver.
Qed.

(** X13. A call of a listener that names no parameter registers the
    defaults of the signature: no inputs and outputs, [preprocess] and
    [postprocess] [True], [batch] and [scroll_to_output] [False],
    [max_batch_size] 4, [api_name], [queue], [every] and [js] [None]; and
    it registers no cancellation. *)
Theorem listener_defaults l r fn w :
  is_decorator fn = false → bindable w r = true →
  ∃ h w' dep,
    listener l (Some r) fn no_kwargs w = Returns h w' ∧
    dependencies w' = dependencies w ++ [dep] ∧
    dep_inputs dep = CompNone ∧ dep_outputs dep = CompNone ∧
    dep_options dep !! "preprocess" = Some (PyBool true) ∧
    dep_options dep !! "postprocess" = Some (PyBool true) ∧
    dep_options dep !! "scroll_to_output" = Some (PyBool false) ∧
    dep_options dep !! "batch" = Some (PyBool false) ∧
    dep_options dep !! "max_batch_size" = Some (PyInt 4) ∧
    dep_options dep !! "api_name" = Some PyNone ∧
    dep_options dep !! "queue" = Some PyNone ∧
    dep_options dep !! "every" = Some PyNone ∧
    dep_options dep !! "js" = Some PyNone.
Proof.
  intros Hfn Hb. unfold listener.
  destruct (event_trigger_registers l r fn (bind_defaults no_kwargs) w
              Hfn Hb) as (h & w' & dep & Hrun & _ & -> & Hdeps & _).
  do 3 eexists. split; [done|]. split; [done|]. repeat split.
Qed.

(** X14. A handle given alone as [cancels] counts as the list of that
    handle where it holds the record of a binding.  The handle of a call
    with [fn == "decorator"], an empty dict, is ignored when it is given
    alone: nothing is registered for it. *)
Theorem cancels_single_handle r name d w :
  (is_Some (key_vals d) →
     set_cancel_events r name (CancelsOne d) w
     = set_cancel_events r name (CancelsList [d]) w) ∧
  (key_vals d = None →
     ∃ w', set_cancel_events r name (CancelsOne d) w = Returns () w' ∧
           dependencies w' = dependencies w ∧ blocks w' = blocks w ∧
           warnings w' = warnings w).
Proof.
  split.
  - intros [dep Hsome]. unfold set_cancel_events, cancels_truthy.
    rewrite bool_decide_eq_true_2 by (rewrite Hsome; by eexists). done.
  - intros Hnone. unfold set_cancel_events, cancels_truthy.
    rewrite bool_decide_eq_false_2 by (rewrite Hnone; by intros [? ?]).
    by eexists.
Qed.

(** X15. Calling the handle of a binding calls the function that was
    bound, with the same arguments. *)
Theorem handle_call_forwards l r fn a w h w1 apply_fn args w2 :
  is_decorator fn = false →
  event_trigger l (Some r) fn a w = Returns h w1 →
  __call__ apply_fn h args w2 = call apply_fn fn args w2.
Proof.
  intros Hfn Hrun.
  by destruct (event_trigger_handle _ _ _ _ _ _ _ Hfn Hrun) as (dep & -> & _).
Qed.

(** X16. A [show_progress] that the caller gives is registered as
    follows: a boolean as ["full"] for [True] and ["hidden"] for [False],
    [None] as the default of the event kind, and a string as it is,
    whatever default the event kind has. *)
Theorem show_progress_given l r fn kw w (p : pyobj) :
  kw_show_progress kw = Some p →
  is_decorator fn = false → bindable w r = true →
  ∃ h w' dep,
    listener l (Some r) fn kw w = Returns h w' ∧
    key_vals h = Some dep ∧
    (∀ b : bool, p = PyBool b →
       dep_options dep !! "show_progress"
       = Some (PyStr (if b then "full" else "hidden"))) ∧
    (p = PyNone →
       dep_options dep !! "show_progress"
       = Some (of_option PyStr (show_progress l))) ∧
    (∀ s, p = PyStr s →
       dep_options dep !! "show_progress" = Some (PyStr s)).
Proof.
  intros Hkw Hfn Hb. unfold listener.
  destruct (event_trigger_registers l r fn (bind_defaults kw) w Hfn Hb)
    as (h & w' & dep & Hrun & -> & -> & _).
  do 3 eexists. split; [done|]. split; [done|].
  simpl. rewrite trigger_kwargs_show_progress, Hkw. simpl.
  split; [|split].
  - intros b ->. by destruct b.
  - by intros ->.
  - by intros s ->.
Qed.

(** X17. A call of a listener registers at most two dependencies, after
    those that are there, and none where it is given
    [fn == "decorator"]. *)
Theorem event_trigger_appends l block fn a w :
  ∃ rest,
    dependencies (world_of (event_trigger l block fn a w))
    = dependencies w ++ rest ∧ (length rest ≤ 2)%nat ∧
    (is_decorator fn = true → rest = []).
Proof.
  destruct (is_decorator fn) eqn:Hfn.
  { exists []. unfold event_trigger. rewrite Hfn. simpl.
    rewrite app_nil_r. repeat split; try done. lia. }
  destruct block as [r|].
  - destruct (bindable w r) eqn:Hb.
    + rewrite event_trigger_run by done. simpl.
      eexists. split; [done|]. simpl. repeat split; try done.
      unfold cancel_dependencies. destruct (cancel_handles _); simpl; lia.
    + exists []. rewrite app_nil_r. repeat split; [|simpl; lia].
      unfold event_trigger, bindable in *. rewrite Hfn.
      destruct w as [bs ds ws]; simpl in *. run_binder.
      destruct (truthy (status_tracker a)); simpl;
        destruct (bool_decide (event_name l = "stop")); simpl;
        (destruct (bs !! r) as [b|]; simpl; [|done]);
        (destruct (check_streamable b) as [e|]; [|done]);
        apply negb_false_iff in Hb; rewrite Hb; done.
  - rewrite event_trigger_on_none by done. exists []. simpl.
    rewrite app_nil_r. repeat split; try done. lia.
Qed.

(** X18. [SelectData] needs the keys ["index"] and ["value"] of the data:
    without ["index"] it raises [KeyError] for it, with ["index"] and
    without ["value"] for ["value"].  With both it keeps the two values,
    the target and the data; [selected] is the value of ["selected"], and
    [True] where the data has none. *)
Theorem select_data_keys target data :
  (data !! "index" = None →
     SelectData.__init__ target data = KeyError "index") ∧
  (is_Some (data !! "index") → data !! "value" = None →
     SelectData.__init__ target data = KeyError "value") ∧
  (∀ i v, data !! "index" = Some i → data !! "value" = Some v →
     ∃ sd, SelectData.__init__ target data = Built sd ∧
       SelectData.index sd = i ∧ SelectData.value sd = v ∧
       EventData.target (SelectData.base sd) = target ∧
       EventData._data (SelectData.base sd) = data ∧
       (data !! "selected" = None → SelectData.selected sd = PyBool true) ∧
       (∀ s, data !! "selected" = Some s → SelectData.selected sd = s)).
Proof.
  unfold SelectData.__init__, getitem, get. split; [|split].
  - by intros ->.
  - intros [i ->] ->. done.
  - intros i v -> ->. eexists. split; [done|]. simpl.
    repeat split; [by intros ->|]. by intros s ->.
Qed.

(** X19. [LikeData] and [SelectData] read the same data alike: they raise
    the same [KeyError] or agree on index, value and target.  Each reads
    its own flag only: [liked] is [True] for data of a deselection that
    has no key ["liked"]. *)
Theorem like_data_as_select_data target data :
  match SelectData.__init__ target data, LikeData.__init__ target data with
  | Built sd, Built ld =>
      LikeData.index ld = SelectData.index sd ∧
      LikeData.value ld = SelectData.value sd ∧
      LikeData.base ld = SelectData.base sd ∧
      (data !! "liked" = None → LikeData.liked ld = PyBool true)
  | KeyError k, KeyError k' => k = k'
  | _, _ => False
  end.
Proof.
  unfold SelectData.__init__, LikeData.__init__, getitem, get.
  destruct (data !! "index"); [|done].
  destruct (data !! "value"); [|done]. simpl.
  repeat split. by intros ->.
Qed.

Lemma check_streamable_raises_witness :
  ∃ w', event_trigger (of_name change) (Some 0) (PyFn "run_fn")
          (bind_defaults no_kwargs) app_uploaded = Raises not_webcam w' ∧
        dependencies w' = dependencies app_uploaded ∧
        blocks w' = blocks app_uploaded.
Proof.
  apply (check_streamable_raises (of_name change) 0 (PyFn "run_fn")
           (bind_defaults no_kwargs) app_uploaded uploaded not_webcam);
    try reflexivity.
  apply elem_of_cons. by left.
Defined.

Lemma decorator_handle_then_raises_witness :
  event_trigger (of_name change) (Some 1) (PyStr "decorator")
    (bind_defaults no_kwargs) app = Returns decorator_handle app ∧
  (∃ w', Dependency_then decorator_handle (PyFn "next_fn") no_kwargs app
         = Raises (AttributeError no_events_msg) w' ∧
         dependencies w' = dependencies app ∧ blocks w' = blocks app) ∧
  (∃ w', Dependency_success decorator_handle (PyFn "next_fn") no_kwargs app
         = Raises (AttributeError no_events_msg) w' ∧
         dependencies w' = dependencies app ∧ blocks w' = blocks app).
Proof.
  split; [reflexivity|].
  apply (decorator_handle_then_raises (of_name change) (Some 1)
           (PyStr "decorator") (bind_defaults no_kwargs) app
           decorator_handle app (PyFn "next_fn") no_kwargs app);
    reflexivity.
Defined.

Lemma bind_warnings_witness :
  ∃ h w' ws,
    event_trigger (of_name stop) (Some 1) (PyFn "run_fn")
      (bind_defaults tracked) app = Returns h w' ∧
    warnings w' = warnings app ++ ws ∧
    (status_tracker_msg ∈ ws ↔
     truthy (status_tracker (bind_defaults tracked)) = true) ∧
    (stop_msg ∈ ws ↔ event_name (of_name stop) = "stop").
Proof.
  apply (bind_warnings (of_name stop) 1 (PyFn "run_fn")
           (bind_defaults tracked) app); reflexivity.
Defined.

Lemma bind_sets_one_flag_witness :
  ∃ h w' b',
    event_trigger stream (Some 0) (PyFn "predict")
      (bind_defaults no_kwargs) app = Returns h w' ∧
    blocks w' !! 0 = Some b' ∧
    events b' = events webcam ∧
    check_streamable b' = check_streamable webcam ∧
    (∀ name, callback stream = Some (SetAttrTrue name) →
       attrs b' = <[name := PyBool true]> (attrs webcam)) ∧
    (callback stream = None → blocks w' = blocks app) ∧
    (∀ r', r' ≠ 0 → blocks w' !! r' = blocks app !! r').
Proof.
  apply (bind_sets_one_flag stream 0 (PyFn "predict")
           (bind_defaults no_kwargs) app webcam); reflexivity.
Defined.

Lemma bind_options_keys_witness :
  ∃ h w' dep,
    event_trigger like (Some 1) (PyFn "vote") (bind_defaults tracked) app
    = Returns h w' ∧
    key_vals h = Some dep ∧
    dom (dep_options dep) =
      ({[ "preprocess"; "postprocess"; "scroll_to_output"; "show_progress";
          "api_name"; "js"; "queue"; "batch"; "max_batch_size"; "every";
          "trigger_after"; "trigger_only_on_success" ]} : gset string) ∧
    dep_options dep !! "js"
    = Some (of_option PyStr (_js (bind_defaults tracked))) ∧
    dep_targets dep = 1 ∧ dep_trigger dep = event_name like ∧
    dep_fn dep = PyFn "vote" ∧
    dep_inputs dep = inputs (bind_defaults tracked) ∧
    dep_outputs dep = outputs (bind_defaults tracked).
Proof.
  apply (bind_options_keys like 1 (PyFn "vote") (bind_defaults tracked) app);
    reflexivity.
Defined.

Lemma listener_defaults_witness :
  ∃ h w' dep,
    listener (of_name click) (Some 1) (PyFn "run_fn") no_kwargs app
    = Returns h w' ∧
    dependencies w' = dependencies app ++ [dep] ∧
    dep_inputs dep = CompNone ∧ dep_outputs dep = CompNone ∧
    dep_options dep !! "preprocess" = Some (PyBool true) ∧
    dep_options dep !! "postprocess" = Some (PyBool true) ∧
    dep_options dep !! "scroll_to_output" = Some (PyBool false) ∧
    dep_options dep !! "batch" = Some (PyBool false) ∧
    dep_options dep !! "max_batch_size" = Some (PyInt 4) ∧
    dep_options dep !! "api_name" = Some PyNone ∧
    dep_options dep !! "queue" = Some PyNone ∧
    dep_options dep !! "every" = Some PyNone ∧
    dep_options dep !! "js" = Some PyNone.
Proof.
  apply (listener_defaults (of_name click) 1 (PyFn "run_fn") app);
    reflexivity.
Defined.

Lemma cancels_single_handle_witness :
  is_Some (key_vals run) ∧
  set_cancel_events 1 "click" (CancelsOne run) app_run
  = set_cancel_events 1 "click" (CancelsList [run]) app_run.
Proof.
  assert (is_Some (key_vals run)) as Hsome by (by eexists).
  split; [exact Hsome|].
  exact (proj1 (cancels_single_handle 1 "click" run app_run) Hsome).
Defined.

Lemma handle_call_forwards_witness :
  bind_run = Returns run app_run ∧
  __call__ return_none run [PyInt 3] app_run
  = call return_none (PyFn "run_fn") [PyInt 3] app_run.
Proof.
  split; [reflexivity|].
  apply (handle_call_forwards (of_name change) 1 (PyFn "run_fn")
           (bind_defaults no_kwargs) app run app_run return_none
           [PyInt 3] app_run); reflexivity.
Defined.

Lemma show_progress_given_witness :
  show_progress stream = Some "hidden" ∧
  ∃ h w' dep,
    listener stream (Some 0) (PyFn "predict") (progress (PyBool true)) app
    = Returns h w' ∧
    key_vals h = Some dep ∧
    (∀ b : bool, PyBool true = PyBool b →
       dep_options dep !! "show_progress"
       = Some (PyStr (if b then "full" else "hidden"))) ∧
    (PyBool true = PyNone →
       dep_options dep !! "show_progress"
       = Some (of_option PyStr (show_progress stream))) ∧
    (∀ s, PyBool true = PyStr s →
       dep_options dep !! "show_progress" = Some (PyStr s)).
Proof.
  split; [reflexivity|].
  apply (show_progress_given stream 0 (PyFn "predict")
           (progress (PyBool true)) app (PyBool true)); reflexivity.
Defined.

Lemma select_data_keys_witness :
  SelectData.__init__ (Some 1) no_value = KeyError "value" ∧
  ∃ sd, SelectData.__init__ (Some 1) picked = Built sd ∧
    SelectData.index sd = PyInt 1 ∧ SelectData.value sd = PyStr "b" ∧
    EventData.target (SelectData.base sd) = Some 1 ∧
    EventData._data (SelectData.base sd) = picked ∧
    (picked !! "selected" = None → SelectData.selected sd = PyBool true) ∧
    (∀ s, picked !! "selected" = Some s → SelectData.selected sd = s).
Proof.
  split.
  - apply (proj1 (proj2 (select_data_keys (Some 1) no_value)));
      [by eexists|reflexivity].
  - apply (proj2 (proj2 (select_data_keys (Some 1) picked)));
      reflexivity.
Defined.

End EventsExtras.
